(** * stac-fastapi: request-model composition, core-client registry and
      proxy-header resolution

    A shallow embedding of
    - [stac_fastapi/api/models.py] ([create_request_model] and the URI
      request classes),
    - [stac_fastapi/extensions/core/{crs,filter}/request.py],
    - [stac_fastapi/types/core.py] ([BaseCoreClient]'s registry methods),
    - the proxy-header middleware exercised by [api/tests/test_middleware.py].

    Python objects are modelled by what the code reads from them: a class by
    its name, its bases and the two reflective views the composer inspects
    ([__attrs_attrs__] for attrs classes, [__fields__] for pydantic models); a
    list object that is shared and mutated by a heap cell. *)

From stdpp Require Import gmap strings list pretty.
From Stdlib Require Import ZArith Ascii.

Open Scope string_scope.
Open Scope list_scope.

(** ** Python values and classes *)

Module Py.

(** The literal values that occur as defaults and metadata. [VUndefined]
    is pydantic's [Undefined] sentinel (the only instance of
    [UndefinedType]), [VEllipsis] is [...]. *)
Inductive value : Type :=
| VNone
| VEllipsis
| VUndefined
| VBool (b : bool)
| VInt (z : Z)
| VStr (s : string).

#[global] Instance value_eq_dec : EqDecision value.
Proof. solve_decision. Defined.

(** [isinstance(v, UndefinedType)] *)
Definition is_UndefinedType (v : value) : bool :=
  match v with VUndefined => true | _ => false end.

#[local] Unset Elimination Schemes.

(** What a metadata dict ([FieldInfo.extra]) holds: a literal value or a
    dict again. *)
Inductive meta : Type :=
| MVal (v : value)
| MDict (entries : list (string * meta)).

#[local] Set Elimination Schemes.

(** Which constructor built a field-info object: pydantic's [Field], or
    one of FastAPI's parameter classes (all subclasses of [FieldInfo]). *)
Inductive param_class : Type := FieldP | PathP | QueryP | BodyP.

#[global] Instance param_class_eq_dec : EqDecision param_class.
Proof. solve_decision. Defined.

(** pydantic's [FieldInfo]: the attributes [create_request_model] reads. *)
Record FieldInfo : Type := mkFieldInfo {
  param : param_class;
  default : value;
  default_factory : option string;
  alias : option string;
  alias_priority : option Z;
  title : option string;
  description : option string;
  const : option bool;
  gt : option Z;
  ge : option Z;
  lt : option Z;
  le : option Z;
  multiple_of : option Z;
  min_items : option Z;
  max_items : option Z;
  min_length : option Z;
  max_length : option Z;
  regex : option string;
  extra : list (string * meta)
}.

(** pydantic's [ModelField]: [v.field_info] and [v.outer_type_] (the type
    annotation, kept as written). *)
Record ModelField : Type := mkModelField {
  field_info : FieldInfo;
  outer_type_ : string
}.

(** What an attribute of a class body is bound to: a plain value, a
    field-info object ([Query(...)], [Path(...)], [Field(...)]), or, for an
    [attr.ib()] without default, attrs' sentinel [NOTHING]. *)
Inductive object : Type :=
| Val (v : value)
| Info (fi : FieldInfo)
| NOTHING.

(** An attrs [Attribute] (an element of [__attrs_attrs__]). *)
Record Attribute : Type := mkAttribute {
  a_name : string;
  a_type : string;
  a_default : object;
  a_converter : option string
}.

#[local] Unset Elimination Schemes.

(** A class object. [attrs_attrs] is [cls.__attrs_attrs__] (already
    flattened over the bases, as attrs stores it), [fields] is
    [cls.__fields__] (likewise flattened by pydantic), [namespace] holds
    the plain class attributes of the class body. *)
Inductive class : Type :=
  mkClass (cls_name : string) (cls_bases : list class)
          (attrs_attrs : list Attribute)
          (fields : gmap string ModelField)
          (namespace : list (string * object)).

#[local] Set Elimination Schemes.

Definition cls_name (c : class) : string :=
  match c with mkClass n _ _ _ _ => n end.
Definition cls_bases (c : class) : list class :=
  match c with mkClass _ bs _ _ _ => bs end.
Definition attrs_attrs (c : class) : list Attribute :=
  match c with mkClass _ _ at_ _ _ => at_ end.
Definition fields (c : class) : gmap string ModelField :=
  match c with mkClass _ _ _ fs _ => fs end.
Definition namespace (c : class) : list (string * object) :=
  match c with mkClass _ _ _ _ ns => ns end.

(** [issubclass(c, target)]: [target] is [c] or an ancestor of [c].
    Classes are identified by name. *)
Fixpoint issubclass (c : class) (target : string) : bool :=
  match c with
  | mkClass n bs _ _ _ =>
      bool_decide (n = target)
      || existsb (fun b => issubclass b target) bs
  end.

(** Raised exceptions. The message of a [ValueError] of attrs or pydantic
    names the attribute or field met first, which the model's dicts do not
    order; it is left out. *)
Inductive exception : Type :=
| TypeError (msg : string)
| NotFoundError (msg : string)
| ValueError.

(** The outcome of a call that may raise. *)
Inductive result (A : Type) : Type :=
| Return (a : A)
| Raise (e : exception).
Arguments Return {A} a.
Arguments Raise {A} e.

End Py.

Import Py.

(** ** [stac_fastapi.types.extension.ApiExtension] *)

Module Extension.

(** An extension instance, by the attributes the callers read:
    [type(ext).__name__], the optional [conformance_classes] attribute
    (read with [getattr(ext, "conformance_classes", [])]), [schema_href],
    and [get_request_model(verb)], which is [None] or a class. *)
Record ApiExtension : Type := mkApiExtension {
  type_name : string;
  ext_conformance_classes : option (list string);
  schema_href : option string;
  get_request_model : string -> option class
}.

End Extension.

Import Extension.

(** ** [stac_fastapi/api/models.py] and the extension request models *)

Module Models.

(** *** The libraries' class machinery, as far as the module uses it *)

(** [stac_fastapi.types.search.APIRequest] and [pydantic.BaseModel]: the two
    roots the composer tests membership of. Neither declares a field. *)
Definition APIRequest : class := mkClass "APIRequest" [] [] ∅ [].
Definition BaseModel : class := mkClass "BaseModel" [] [] ∅ [].

(** [FieldInfo.__init__(default, alias=..., description=...)] as used by the
    declarations below: everything not given is [None], and
    [alias_priority] defaults to 2 exactly when an alias is given. *)
Definition FieldInfo_init (p : param_class) (dflt : value)
    (al : option string) (descr : option string) : FieldInfo :=
  {| param := p; default := dflt; default_factory := None;
     alias := al;
     alias_priority := match al with Some _ => Some 2%Z | None => None end;
     title := None; description := descr; const := None;
     gt := None; ge := None; lt := None; le := None; multiple_of := None;
     min_items := None; max_items := None;
     min_length := None; max_length := None; regex := None; extra := [] |}.

Definition Path (dflt : value) (descr : option string) : FieldInfo :=
  FieldInfo_init PathP dflt None descr.
Definition Query (dflt : value) (al descr : option string) : FieldInfo :=
  FieldInfo_init QueryP dflt al descr.
Definition Field (dflt : value) (al : option string) : FieldInfo :=
  FieldInfo_init FieldP dflt al None.

(** [fastapi.Body(default, default_factory=..., alias=..., ...)] with the
    keywords [create_request_model] passes. Each is kept under the attribute
    of its name, except [extra=]: [FieldInfo] has no such parameter and
    collects the keyword with the unknown ones, so the new object's [extra]
    is the dict [{"extra": declared}]. *)
Definition Body (dflt : value) (default_factory_ : option string)
    (alias_ : option string) (alias_priority_ : option Z)
    (title_ description_ : option string) (const_ : option bool)
    (gt_ ge_ lt_ le_ multiple_of_ : option Z)
    (min_items_ max_items_ min_length_ max_length_ : option Z)
    (regex_ : option string) (extra_ : list (string * meta)) : FieldInfo :=
  {| param := BodyP; default := dflt; default_factory := default_factory_;
     alias := alias_; alias_priority := alias_priority_;
     title := title_; description := description_; const := const_;
     gt := gt_; ge := ge_; lt := lt_; le := le_; multiple_of := multiple_of_;
     min_items := min_items_; max_items := max_items_;
     min_length := min_length_; max_length := max_length_;
     regex := regex_; extra := [("extra", MDict extra_)] |}.

(** A statement of a class body: [name: type = attr.ib(default=..,
    converter=..)] or a plain annotated assignment [name: type = rhs]. *)
Inductive stmt : Type :=
| attr_ib (name type_ : string) (dflt : object) (converter : option string)
| assign (name type_ : string) (rhs : object).

Definition own_attrs (body : list stmt) : list Attribute :=
  omap (fun s => match s with
                 | attr_ib n t d c => Some (mkAttribute n t d c)
                 | assign _ _ _ => None
                 end) body.

Definition own_namespace (body : list stmt) : list (string * object) :=
  omap (fun s => match s with
                 | attr_ib _ _ _ _ => None
                 | assign n _ rhs => Some (n, rhs)
                 end) body.

(** attrs' collection of inherited attributes (the default,
    [collect_by_mro=False]): walk the classes above the new one in
    resolution order and take every attribute of their [__attrs_attrs__]
    whose name is not taken yet. Every class above a direct base comes after
    that base in the resolution order and its attributes are already in the
    base's flattened [__attrs_attrs__], so walking the direct bases in
    declaration order collects the same list. *)
Fixpoint collect (attrs : list Attribute) (taken : list string)
    : list Attribute :=
  match attrs with
  | [] => []
  | a :: rest =>
      if bool_decide (a_name a ∈ taken) then collect rest taken
      else a :: collect rest (a_name a :: taken)
  end.

Definition collect_base_attrs (bases : list class) (taken : list string)
    : list Attribute :=
  collect (mjoin (attrs_attrs <$> bases)) taken.

(** Python's class creation refuses a base that is listed twice (classes
    are identified by name); the first such base is named in the error. *)
Fixpoint duplicate_base (bases : list class) : option string :=
  match bases with
  | [] => None
  | b :: rest =>
      if bool_decide (cls_name b ∈ cls_name <$> rest) then Some (cls_name b)
      else duplicate_base rest
  end.

(** The C3 merge of resolution orders (classes by name): take the first
    head that is in no tail, remove it everywhere, go on; when no head
    qualifies the merge is stuck on the remaining heads. *)
Definition good_head (seqs : list (list string)) (h : string) : bool :=
  forallb (fun seq => negb (bool_decide (h ∈ tail seq))) seqs.

Definition next_head (seqs : list (list string)) : option string :=
  head (filter (fun h => good_head seqs h = true) (omap head seqs)).

Definition drop_head (h : string) (seqs : list (list string))
    : list (list string) :=
  (fun seq =>
     match seq with
     | x :: rest => if bool_decide (x = h) then rest else seq
     | [] => []
     end) <$> seqs.

(** The names of a list, each kept where it occurs first. *)
Fixpoint first_occurrences (seen names : list string) : list string :=
  match names with
  | [] => []
  | n :: rest =>
      if bool_decide (n ∈ seen) then first_occurrences seen rest
      else n :: first_occurrences (n :: seen) rest
  end.

Fixpoint merge (fuel : nat) (seqs : list (list string))
    : list string + list string :=
  match filter (fun seq => seq <> []) seqs with
  | [] => inr []
  | live =>
      match fuel with
      | O => inl (first_occurrences [] (omap head live))
      | S fuel' =>
          match next_head live with
          | None => inl (first_occurrences [] (omap head live))
          | Some h =>
              match merge fuel' (drop_head h live) with
              | inr order => inr (h :: order)
              | inl heads => inl heads
              end
          end
      end
  end.

(** The resolution order below a new class with these bases: the merge of
    the bases' orders and of the list of bases itself. A class without
    bases derives from [object], which closes every order. [abc.ABC] and
    pydantic's [Representation] are left out: only [APIRequest] and
    [BaseModel] derive from them, so each one directly follows its class in
    every order and is never a head the merge is stuck on. *)
Definition merge_bases (orders : list (list string)) (bases : list class)
    : list string + list string :=
  match bases with
  | [] => inr ["object"]
  | _ :: _ =>
      merge (length (mjoin orders) + length bases)
            (orders ++ [cls_name <$> bases])
  end.

Fixpoint mro (c : class) : list string + list string :=
  match c with
  | mkClass n bs _ _ _ =>
      match
        (fix orders (bs : list class) : list string + list (list string) :=
           match bs with
           | [] => inr []
           | b :: rest =>
               match mro b, orders rest with
               | inr o, inr os => inr (o :: os)
               | inl heads, _ => inl heads
               | _, inl heads => inl heads
               end
           end) bs
      with
      | inl heads => inl heads
      | inr os =>
          match merge_bases os bs with
          | inr order => inr (n :: order)
          | inl heads => inl heads
          end
      end
  end.

Definition linearize (bases : list class) : list string + list string :=
  match mro (mkClass "" bases [] ∅ []) with
  | inr order => inr (tail order)
  | inl heads => inl heads
  end.

Fixpoint join_names (names : list string) : string :=
  match names with
  | [] => ""
  | [n] => (" " ++ n)%string
  | n :: rest => (" " ++ n ++ "," ++ join_names rest)%string
  end.

Definition mro_message (heads : list string) : string :=
  ("Cannot create a consistent method resolution"
   ++ String (ascii_of_nat 10) "order (MRO) for bases"
   ++ join_names heads)%string.

(** attrs refuses an attribute without default after one with a default
    ("No mandatory attributes allowed after an attribute with a default
    value"). *)
Definition has_default (a : Attribute) : bool :=
  match a_default a with
  | NOTHING => false
  | _ => true
  end.

Fixpoint mandatory_after_default (had_default : bool) (attrs : list Attribute)
    : bool :=
  match attrs with
  | [] => false
  | a :: rest =>
      if had_default && negb (has_default a) then true
      else mandatory_after_default (had_default || has_default a) rest
  end.

(** [attr.make_class(name, attrs, bases=bases)]: Python creates the class
    (and raises [TypeError] on a repeated base or when the bases have no
    consistent resolution order), then attrs gives it the inherited
    attributes followed by its own (and raises [ValueError] on a mandatory
    attribute after a defaulted one). *)
Definition make_class (name : string) (attrs : list Attribute)
    (bases : list class) : result class :=
  match duplicate_base bases with
  | Some n => Raise (TypeError ("duplicate base class " ++ n)%string)
  | None =>
      match linearize bases with
      | inl heads => Raise (TypeError (mro_message heads))
      | inr _ =>
          let all_attrs :=
            collect_base_attrs bases (a_name <$> attrs) ++ attrs in
          if mandatory_after_default false all_attrs then Raise ValueError
          else Return (mkClass name bases all_attrs ∅ [])
      end
  end.

(** [@attr.s class name(bases): body], for a class statement that Python
    and attrs accept (as those of the sources are). Without [auto_attribs],
    only the [attr.ib] statements become attributes; plain assignments stay
    ordinary class attributes. *)
Definition attr_s (name : string) (bases : list class) (body : list stmt)
    : class :=
  mkClass name bases
    (collect_base_attrs bases (a_name <$> own_attrs body) ++ own_attrs body)
    ∅ (own_namespace body).

(** The fields a pydantic class inherits: the first base wins. *)
Definition inherited_fields (bases : list class) : gmap string ModelField :=
  foldr (fun b acc => fields b ∪ acc) ∅ bases.

(** [class name(bases): body] for a pydantic model: a plain right-hand side
    [v] stands for [FieldInfo(v)], and a declaration without right-hand
    side for [FieldInfo(Undefined)] (attrs' [NOTHING], which no pydantic
    body holds, is read as none). *)
Definition pydantic_class (name : string) (bases : list class)
    (body : list (string * string * object)) : class :=
  mkClass name bases []
    (foldl (fun acc '(n, t, rhs) =>
              <[n := mkModelField
                       match rhs with
                       | Info fi => fi
                       | Val v => Field v None
                       | NOTHING => Field VUndefined None
                       end t]> acc)
           (inherited_fields bases) body)
    [].

(** A bound that pydantic enforces through the field's type: a numeric
    bound or a bound on the number of items. *)
Definition type_bound (fi : FieldInfo) : bool :=
  bool_decide (gt fi <> None) || bool_decide (ge fi <> None)
  || bool_decide (lt fi <> None) || bool_decide (le fi <> None)
  || bool_decide (multiple_of fi <> None)
  || bool_decide (min_items fi <> None) || bool_decide (max_items fi <> None).

(** A default given together with a default factory. *)
Definition default_and_factory (fi : FieldInfo) : bool :=
  negb (is_UndefinedType (default fi))
  && bool_decide (default_factory fi <> None).

(** [pydantic.create_model(name, __base__=base, **fields)], as
    [create_request_model] calls it: every pair is the outer type of a field
    of an existing model with the body parameter re-derived from it.
    pydantic has turned the type of a field with numeric or items bounds
    into a constrained type when that model was made, and a constrained type
    takes no such bound again, so a pair whose parameter has one is refused
    ("field constraints are set but not enforced"); so is a parameter with
    both a default and a default factory. Otherwise the result is a subclass
    of [base] whose fields are [base]'s, overridden and extended by the
    pairs. The models have pydantic's default configuration and, beside
    their fields, no class attribute that a field name of another model
    would shadow. A type is identified by its annotation: for a field with
    a length bound or a pattern pydantic builds the constrained type anew
    from the same annotation and bounds. *)
Definition create_model (name : string)
    (fields_ : gmap string (string * FieldInfo)) (base : class)
    : result class :=
  if bool_decide
       (map_Forall (fun _ tf => default_and_factory tf.2 = false
                                /\ type_bound tf.2 = false) fields_)
  then
    Return (mkClass name [base] []
              (((fun tf => mkModelField tf.2 tf.1) <$> fields_) ∪ fields base)
              [])
  else Raise ValueError.

(** *** [create_request_model] *)

(** The body parameter re-derived from one field. *)
Definition body_of (field_info : FieldInfo) : FieldInfo :=
  Body (if is_UndefinedType (default field_info) then VNone
        else default field_info)
       (default_factory field_info)
       (alias field_info)
       (alias_priority field_info)
       (title field_info)
       (description field_info)
       (const field_info)
       (gt field_info)
       (ge field_info)
       (lt field_info)
       (le field_info)
       (multiple_of field_info)
       (min_items field_info)
       (max_items field_info)
       (min_length field_info)
       (max_length field_info)
       (regex field_info)
       (extra field_info).

(** A declaration that the re-derivation leaves acceptable to pydantic: no
    default factory and no bound enforced through the type. *)
Definition rederivable (field_info : FieldInfo) : bool :=
  bool_decide (default_factory field_info = None)
  && negb (type_bound field_info).

(** A field-info object with its [extra] put under the key ["extra"] of a
    new dict. *)
Definition wrap_extra (fi : FieldInfo) : FieldInfo :=
  {| param := param fi; default := default fi;
     default_factory := default_factory fi;
     alias := alias fi; alias_priority := alias_priority fi;
     title := title fi; description := description fi; const := const fi;
     gt := gt fi; ge := ge fi; lt := lt fi; le := le fi;
     multiple_of := multiple_of fi;
     min_items := min_items fi; max_items := max_items fi;
     min_length := min_length fi; max_length := max_length fi;
     regex := regex fi; extra := [("extra", MDict (extra fi))] |}.

(** [for k, v in model.__fields__.items(): fields[k] = (v.outer_type_, body)] *)
Definition add_model_fields (model : class)
    (fields_ : gmap string (string * FieldInfo))
    : gmap string (string * FieldInfo) :=
  map_fold (fun k v acc => <[k := (outer_type_ v, body_of (field_info v))]> acc)
           fields_ (fields model).

Definition mixed_message : string :=
  "Mixed Request Model types. Check extension request types.".

(** The list [models] the composer works on. *)
Definition request_models (base_model : class)
    (extensions : option (list ApiExtension)) (mixins : option (list class))
    (request_type : string) : list class :=
  let extension_models :=
    omap (fun extension => get_request_model extension request_type)
         (from_option id [] extensions) in
  [base_model] ++ extension_models ++ from_option id [] mixins.

Definition create_request_model (model_name : string) (base_model : class)
    (extensions : option (list ApiExtension)) (mixins : option (list class))
    (request_type : string) : result class :=
  let models := request_models base_model extensions mixins request_type in
  if forallb (fun m => issubclass m "APIRequest") models then
    make_class model_name [] models
  else if forallb (fun m => issubclass m "BaseModel") models then
    let fields_ := foldl (fun acc model => add_model_fields model acc) ∅ models in
    create_model model_name fields_ base_model
  else
    Raise (TypeError mixed_message).

(** The wrappers; the default base models live in
    [stac_fastapi.types.search] and are passed in. *)
Definition create_get_request_model (extensions : option (list ApiExtension))
    (base_model : class) : result class :=
  create_request_model "SearchGetRequest" base_model extensions None "GET".

Definition create_post_request_model (extensions : option (list ApiExtension))
    (base_model : class) : result class :=
  create_request_model "SearchPostRequest" base_model extensions None "POST".

(** *** The request classes declared in the sources *)

Definition CRS84 : string := "http://www.opengis.net/def/crs/OGC/1.3/CRS84".

(** The texts of [stac_fastapi.api.descriptions], which the declarations
    only pass on. *)
Record Descriptions : Type := mkDescriptions {
  COLLECTION_ID : string;
  ITEM_ID : string;
  CRS : string;
  LIMIT : string;
  BBOX : string;
  BBOX_CRS : string;
  DATETIME : string;
  FILTER : string;
  FILTER_LANG : string;
  FILTER_CRS : string;
  PAGING_TOKEN : string
}.

Section Declarations.

Variable descriptions : Descriptions.

Definition CollectionUri : class :=
  attr_s "CollectionUri" [APIRequest]
    [ attr_ib "collection_id" "str"
        (Info (Path VEllipsis (Some (COLLECTION_ID descriptions)))) None ].

Definition ItemUri : class :=
  attr_s "ItemUri" [CollectionUri]
    [ attr_ib "item_id" "str"
        (Info (Path VEllipsis (Some (ITEM_ID descriptions)))) None;
      attr_ib "crs" "Optional[str]"
        (Info (Query (VStr CRS84) None (Some (CRS descriptions)))) None ].

Definition EmptyRequest : class := attr_s "EmptyRequest" [APIRequest] [].

Definition ItemCollectionUri : class :=
  attr_s "ItemCollectionUri" [CollectionUri]
    [ attr_ib "limit" "int"
        (Info (Query (VInt 10) None (Some (LIMIT descriptions)))) None;
      attr_ib "bbox" "Optional[BBox]"
        (Info (Query VNone None (Some (BBOX descriptions))))
        (Some "str2bbox");
      attr_ib "bbox_crs" "Optional[str]"
        (Info (Query (VStr CRS84) (Some "bbox-crs")
                 (Some (BBOX_CRS descriptions)))) None;
      attr_ib "datetime" "Optional[DateTimeType]"
        (Info (Query VNone None (Some (DATETIME descriptions))))
        (Some "str_to_interval");
      attr_ib "crs" "Optional[str]"
        (Info (Query (VStr CRS84) None (Some (CRS descriptions)))) None;
      attr_ib "filter" "Optional[str]"
        (Info (Query VNone None (Some (FILTER descriptions)))) None;
      attr_ib "filter_lang" "Optional[str]"
        (Info (Query (VStr "cql-json") (Some "filter-lang")
                 (Some (FILTER_LANG descriptions)))) None;
      attr_ib "filter_crs" "Optional[str]"
        (Info (Query (VStr CRS84) (Some "filter-crs")
                 (Some (FILTER_CRS descriptions)))) None ].

Definition GETTokenPagination : class :=
  attr_s "GETTokenPagination" [APIRequest]
    [ attr_ib "pt" "Optional[str]"
        (Info (Query VNone None (Some (PAGING_TOKEN descriptions)))) None ].

End Declarations.

Definition POSTTokenPagination : class :=
  pydantic_class "POSTTokenPagination" [BaseModel]
    [ ("pt", "Optional[str]", Val VNone) ].

Definition POSTPagination : class :=
  pydantic_class "POSTPagination" [BaseModel]
    [ ("page", "Optional[str]", Val VNone) ].

Definition GETPagination : class :=
  attr_s "GETPagination" [APIRequest]
    [ attr_ib "page" "Optional[str]" (Val VNone) None ].

(** [extensions/core/crs/request.py] *)
Definition CrsExtensionGetRequest : class :=
  attr_s "CrsExtensionGetRequest" [APIRequest]
    [ assign "crs" "Optional[crs_url]" (Val (VStr CRS84));
      assign "bbox_crs" "Optional[crs_url]"
        (Info (Field (VStr CRS84) (Some "bbox-crs"))) ].

Definition CrsExtensionPostRequest : class :=
  pydantic_class "CrsExtensionPostRequest" [BaseModel]
    [ ("crs", "Optional[crs_url]", Val (VStr CRS84));
      ("bbox_crs", "Optional[crs_url]",
       Info (Field (VStr CRS84) (Some "bbox-crs"))) ].

(** [extensions/core/filter/request.py] *)
Definition FilterExtensionGetRequest : class :=
  attr_s "FilterExtensionGetRequest" [APIRequest]
    [ attr_ib "filter" "Optional[str]" (Val VNone) None;
      assign "filter_crs" "Optional[crs_url]"
        (Info (Field (VStr CRS84) (Some "filter-crs")));
      assign "filter_lang" "Optional[FilterLang]"
        (Info (Field (VStr "cql-json") (Some "filter-lang"))) ].

Definition FilterExtensionPostRequest : class :=
  pydantic_class "FilterExtensionPostRequest" [BaseModel]
    [ ("filter", "Optional[Dict[str, Any]]", Val VNone);
      ("filter_crs", "Optional[crs_url]",
       Info (Field (VStr CRS84) (Some "filter-crs")));
      ("filter_lang", "Optional[FilterLang]",
       Info (Field (VStr "cql-json") (Some "filter-lang"))) ].

(** The name under which an attribute is exposed as a request parameter
    (its alias when the parameter object has one) and the default it is
    exposed with ([...], required, for an attribute without default). *)
Definition parameter_name (a : Attribute) : string :=
  match a_default a with
  | Info fi => from_option id (a_name a) (alias fi)
  | Val _ | NOTHING => a_name a
  end.

Definition parameter_default (a : Attribute) : value :=
  match a_default a with
  | Info fi => default fi
  | Val v => v
  | NOTHING => VEllipsis
  end.

Definition get_parameter (c : class) (name : string) : option Attribute :=
  head (filter (fun a => parameter_name a = name) (attrs_attrs c)).

(** The kind of a model, as the composer's two tests see it: a
    query-parameter model derives from [APIRequest] only, a body model from
    [BaseModel] only. *)
Inductive kind : Type := QueryKind | BodyKind | BothKinds | NoKind.

#[global] Instance kind_eq_dec : EqDecision kind.
Proof. solve_decision. Defined.

Definition kind_of (m : class) : kind :=
  match issubclass m "APIRequest", issubclass m "BaseModel" with
  | true, false => QueryKind
  | false, true => BodyKind
  | true, true => BothKinds
  | false, false => NoKind
  end.

End Models.

(** ** [stac_fastapi/types/core.py]: the registry methods of [BaseCoreClient] *)

Module Core.

(** List objects are mutable and shared: the client attribute
    [base_conformance_classes] and the module-level name
    [BASE_CONFORMANCE_CLASSES] are references into a heap of list objects. *)
Abbreviation heap := (gmap nat (list string)).

(** The list object the module-level name is bound to at import
    ([stac_fastapi.types.conformance]); its contents are whatever the heap
    holds there. *)
Definition BASE_CONFORMANCE_CLASSES : nat := 0.

Record BaseCoreClient : Type := mkBaseCoreClient {
  base_conformance_classes : nat;
  extensions : list ApiExtension
}.

(** The attrs defaults: [factory=lambda: BASE_CONFORMANCE_CLASSES] hands out
    the module-level list object itself. *)
Definition new_client (extensions_ : list ApiExtension) : BaseCoreClient :=
  {| base_conformance_classes := BASE_CONFORMANCE_CLASSES;
     extensions := extensions_ |}.

(** [getattr(extension, "conformance_classes", [])] *)
Definition extension_classes (extension : ApiExtension) : list string :=
  from_option id [] (ext_conformance_classes extension).

(** A method reads and may update the heap; it is stuck ([None]) only on a
    dangling reference. *)
Definition conformance_classes (self : BaseCoreClient) (h : heap)
    : option (list string * heap) :=
  match h !! base_conformance_classes self with
  | None => None
  | Some l =>
      (* a copy: a local list, not a heap cell *)
      let base_conformance_classes_ :=
        foldl (fun acc extension => acc ++ extension_classes extension)
              l (extensions self) in
      Some (elements (list_to_set base_conformance_classes_ : gset string), h)
  end.

Definition extension_is_enabled (self : BaseCoreClient) (extension : string)
    : bool :=
  existsb (fun ext => bool_decide (type_name ext = extension))
          (extensions self).

Definition get_extension (self : BaseCoreClient) (extension : string)
    : result ApiExtension :=
  let extensions_ :=
    filter (fun ext => type_name ext = extension) (extensions self) in
  match extensions_ with
  | ext :: _ => Return ext
  | [] => Raise (NotFoundError ("Extenson " ++ extension ++ " not found")%string)
  end.

(** [lst.extend(more)] on the list object at [r]. *)
Definition extend (r : nat) (more : list string) (h : heap) : option heap :=
  match h !! r with
  | None => None
  | Some l => Some (<[r := l ++ more]> h)
  end.

(** Returns the reference it was working on: the module-level list. *)
Definition list_conformance_classes (self : BaseCoreClient) (h : heap)
    : option (nat * heap) :=
  let base_conformance := BASE_CONFORMANCE_CLASSES in
  match
    foldl (fun oh extension =>
             match oh with
             | None => None
             | Some h' => extend base_conformance (extension_classes extension) h'
             end)
          (Some h) (extensions self)
  with
  | None => None
  | Some h' => Some (base_conformance, h')
  end.

End Core.

(** ** The proxy-header middleware *)

Module Middleware.

(** The ASGI scope, by the entries the resolver reads. Header names and
    values are decoded text. *)
Record Scope : Type := mkScope {
  scheme : string;
  server : string * Z;
  headers : list (string * string)
}.

Definition lower_ascii (c : ascii) : ascii :=
  let n := Ascii.nat_of_ascii c in
  if (65 <=? n)%nat && (n <=? 90)%nat then Ascii.ascii_of_nat (n + 32) else c.

Fixpoint lower (s : string) : string :=
  match s with
  | EmptyString => EmptyString
  | String c rest => String (lower_ascii c) (lower rest)
  end.

(** Modelled from the spec: the middleware module
    ([stac_fastapi/api/middleware.py]) is missing; header names are matched
    "by case-insensitive name". *)
Definition same_name (a b : string) : bool := bool_decide (lower a = lower b).

(** Modelled from the spec: the middleware module itself
    ([stac_fastapi/api/middleware.py]) is missing; "get a header's raw value
    by case-insensitive name from the header list (first match; null if
    absent)". *)
Fixpoint get_header_value_by_name (hs : list (string * string))
    (header_name : string) : option string :=
  match hs with
  | [] => None
  | (name, v) :: rest =>
      if same_name name header_name then Some v
      else get_header_value_by_name rest header_name
  end.

(** Modelled from the spec: the middleware module is missing; "return a new
    header list with one named header's value replaced (or appended if
    absent), preserving the order and all other headers unchanged". The
    header replaced is the one a lookup of the name finds. *)
Fixpoint replace_header_value_by_name (hs : list (string * string))
    (header_name new_value : string) : list (string * string) :=
  match hs with
  | [] => [(header_name, new_value)]
  | (name, v) :: rest =>
      if same_name name header_name then (name, new_value) :: rest
      else (name, v) :: replace_header_value_by_name rest header_name new_value
  end.

(** Splitting at the first occurrence of a separator character. *)
Fixpoint split_first (sep : ascii) (s : string) : option (string * string) :=
  match s with
  | EmptyString => None
  | String c rest =>
      if bool_decide (c = sep) then Some (EmptyString, rest)
      else match split_first sep rest with
           | Some (a, b) => Some (String c a, b)
           | None => None
           end
  end.

(** Splitting at the last occurrence of a separator character. *)
Fixpoint split_last (sep : ascii) (s : string) : option (string * string) :=
  match s with
  | EmptyString => None
  | String c rest =>
      match split_last sep rest with
      | Some (a, b) => Some (String c a, b)
      | None => if bool_decide (c = sep) then Some (EmptyString, rest) else None
      end
  end.

(** [occurs c s]: the character occurs in the string. *)
Fixpoint occurs (c : ascii) (s : string) : bool :=
  match s with
  | EmptyString => false
  | String c' rest => bool_decide (c' = c) || occurs c rest
  end.

(** All the pieces between separators. *)
Fixpoint split_all (sep : ascii) (s : string) : list string :=
  match s with
  | EmptyString => [EmptyString]
  | String c rest =>
      if bool_decide (c = sep) then EmptyString :: split_all sep rest
      else match split_all sep rest with
           | piece :: pieces => String c piece :: pieces
           | [] => [String c EmptyString]
           end
  end.

Definition digit (c : ascii) : option Z :=
  let n := Ascii.nat_of_ascii c in
  if (48 <=? n)%nat && (n <=? 57)%nat then Some (Z.of_nat (n - 48)) else None.

Fixpoint parse_digits (acc : Z) (s : string) : option Z :=
  match s with
  | EmptyString => Some acc
  | String c rest =>
      match digit c with
      | Some d => parse_digits (10 * acc + d) rest
      | None => None
      end
  end.

(** Modelled from the spec: the middleware module is missing; a port
    segment "parses as an integer" when it is a non-empty run of decimal
    digits. *)
Definition parse_int (s : string) : option Z :=
  match s with
  | EmptyString => None
  | _ => parse_digits 0 s
  end.

(** Modelled from the spec: the middleware module is missing; the value of
    the [key=] directive of a "single structured [Forwarded] header", a
    [;]-separated list of [key=value] pairs. *)
Definition directive (key : string) (forwarded : string) : option string :=
  let pairs := omap (split_first "="%char) (split_all ";"%char forwarded) in
  snd <$> head (filter (fun kv => kv.1 = key) pairs).

(** Modelled from the spec: the middleware module is missing; host and
    port of a [host:port] value, "split on the last colon"; a port segment
    that is no integer leaves the port at [fallback]. *)
Definition host_and_port (v : string) (fallback : option Z)
    : string * option Z :=
  match split_last ":"%char v with
  | Some (h, p) =>
      (h, match parse_int p with Some n => Some n | None => fallback end)
  | None => (v, fallback)
  end.

(** Modelled from the spec: the middleware module is missing. Precedence,
    highest first: the [Forwarded] header's [proto=]/[host=] directives;
    then [X-Forwarded-Proto], [X-Forwarded-Host], [X-Forwarded-Port]; then
    the request's own scheme, host and port, where a [Host] header, when no
    forwarding header applies, supplies the host and only the port it
    embeds. [X-Forwarded-Prefix], if present, is returned verbatim. Where
    the spec names no new value the request's own is kept. *)
Definition get_forwarded_url_parts (scope : Scope)
    : string * string * option Z * option string :=
  let hs := headers scope in
  let original_port := Some (server scope).2 in
  let prefix := get_header_value_by_name hs "x-forwarded-prefix" in
  match get_header_value_by_name hs "forwarded" with
  | Some forwarded =>
      let proto := from_option id (scheme scope) (directive "proto" forwarded) in
      let '(domain, port) :=
        match directive "host" forwarded with
        | Some v => host_and_port v original_port
        | None => ((server scope).1, original_port)
        end in
      (proto, domain, port, prefix)
  | None =>
      let x_proto := get_header_value_by_name hs "x-forwarded-proto" in
      let x_host := get_header_value_by_name hs "x-forwarded-host" in
      let x_port := get_header_value_by_name hs "x-forwarded-port" in
      match x_proto, x_host, x_port, prefix,
            get_header_value_by_name hs "host" with
      | None, None, None, None, Some header_host =>
          let '(domain, port) := host_and_port header_host None in
          (scheme scope, domain, port, prefix)
      | _, _, _, _, _ =>
          let proto := from_option id (scheme scope) x_proto in
          let domain := from_option id (server scope).1 x_host in
          let port :=
            match x_port with
            | Some p =>
                match parse_int p with
                | Some n => Some n
                | None => original_port
                end
            | None => original_port
            end in
          (proto, domain, port, prefix)
      end
  end.

End Middleware.

(** ** [stac_fastapi/types/core.py]: the landing page *)

Module Landing.

Import Core.

(** [str(v)], as an f-string renders a value. *)
Definition str (v : value) : string :=
  match v with
  | VNone => "None"
  | VEllipsis => "Ellipsis"
  | VUndefined => "PydanticUndefined"
  | VBool true => "True"
  | VBool false => "False"
  | VInt z => pretty z
  | VStr s => s
  end.

(** Truthiness, as [or] and [if] test it. *)
Definition truthy (v : value) : bool :=
  match v with
  | VNone => false
  | VBool b => b
  | VInt z => negb (Z.eqb z 0)
  | VStr s => negb (bool_decide (s = ""))
  | VEllipsis | VUndefined => true
  end.

(** [a or b] *)
Definition py_or (a b : value) : value := if truthy a then a else b.

(** [d.get(key)]: [None] for a missing key. *)
Definition dict_get (d : gmap string value) (key : string) : value :=
  from_option id VNone (d !! key).

(** The values of [stac_pydantic]'s [Relations] and [MimeTypes] members the
    page uses; both are string enumerations, a member and its [.value]
    serialize alike. *)
Record Vocabulary : Type := mkVocabulary {
  Relations_self : string;
  Relations_root : string;
  Relations_conformance : string;
  Relations_search : string;
  Relations_child : string;
  MimeTypes_json : string;
  MimeTypes_geojson : string
}.

(** The attributes of [LandingPageMixin]. *)
Record LandingPageMixin : Type := mkLandingPageMixin {
  stac_version : string;
  landing_page_id : string;
  title : string;
  description : string
}.

(** A link is a dict literal, kept in the order it is written. *)
Abbreviation link := (list (string * value)).

(** [stac_types.LandingPage] *)
Record LandingPage : Type := mkLandingPage {
  page_type : string;
  page_id : string;
  page_title : string;
  page_description : string;
  page_stac_version : string;
  conformsTo : list string;
  links : list link;
  stac_extensions : list string
}.

(** What a call ends in: a value, or the [KeyError] of a dict subscript. *)
Inductive outcome (A : Type) : Type :=
| Done (a : A)
| KeyError (key : string).
Arguments Done {A} a.
Arguments KeyError {A} key.

Definition queryables_rel : string :=
  "http://www.opengis.net/def/rel/ogc/1.0/queryables".

(** [link.get("rel")] *)
Definition rel_of (l : link) : option value :=
  snd <$> head (filter (fun kv => kv.1 = "rel") l).

(** [link.get("title")] *)
Definition title_of (l : link) : option value :=
  snd <$> head (filter (fun kv => kv.1 = "title") l).

Section Page.

(** [hrefbuilder.build], of the [BaseHrefBuilder] that
    [stac_fastapi.types.links] makes from the request's base URL. *)
Variable build : string -> string.
Variable vocabulary : Vocabulary.

Definition _landing_page (self : LandingPageMixin)
    (conformance_classes_ : list string) (extension_schemas : list string)
    : LandingPage :=
  {| page_type := "Catalog";
     page_id := landing_page_id self;
     page_title := title self;
     page_description := description self;
     page_stac_version := stac_version self;
     conformsTo := conformance_classes_;
     links :=
       [ [ ("rel", VStr (Relations_self vocabulary));
           ("type", VStr (MimeTypes_json vocabulary));
           ("href", VStr (build "./")) ];
         [ ("rel", VStr (Relations_root vocabulary));
           ("type", VStr (MimeTypes_json vocabulary));
           ("href", VStr (build "./")) ];
         [ ("rel", VStr "data");
           ("type", VStr (MimeTypes_json vocabulary));
           ("href", VStr (build "collections")) ];
         [ ("rel", VStr (Relations_conformance vocabulary));
           ("type", VStr (MimeTypes_json vocabulary));
           ("title",
            VStr "STAC/OGC conformance classes implemented by this server");
           ("href", VStr (build "conformance")) ];
         [ ("rel", VStr (Relations_search vocabulary));
           ("type", VStr (MimeTypes_geojson vocabulary));
           ("title", VStr "STAC search");
           ("href", VStr (build "search"));
           ("method", VStr "GET") ];
         [ ("rel", VStr (Relations_search vocabulary));
           ("type", VStr (MimeTypes_geojson vocabulary));
           ("title", VStr "STAC search");
           ("href", VStr (build "search"));
           ("method", VStr "POST") ] ];
     stac_extensions := extension_schemas |}.

(** The link appended for one collection of the backend's answer;
    [collection['id']] raises on a collection without that key. *)
Definition child_link (collection : gmap string value) : outcome link :=
  let title_ := py_or (dict_get collection "title") (dict_get collection "id") in
  match collection !! "id" with
  | None => KeyError "id"
  | Some id_ =>
      Done [ ("rel", VStr (Relations_child vocabulary));
             ("type", VStr (MimeTypes_json vocabulary));
             ("title", title_);
             ("href", VStr (build ("collections/" ++ str id_)%string)) ]
  end.

(** [for collection in collections["collections"]: ...append(...)] *)
Fixpoint child_links (collections : list (gmap string value))
    : outcome (list link) :=
  match collections with
  | [] => Done []
  | collection :: rest =>
      match child_link collection with
      | KeyError key => KeyError key
      | Done l =>
          match child_links rest with
          | KeyError key => KeyError key
          | Done ls => Done (l :: ls)
          end
      end
  end.

(** [schema.schema_href for schema in self.extensions if schema.schema_href] *)
Definition extension_schemas_of (extensions_ : list ApiExtension)
    : list string :=
  omap (fun schema =>
          match schema_href schema with
          | Some href => if bool_decide (href = "") then None else Some href
          | None => None
          end) extensions_.

(** The link added when the filter extension is enabled. *)
Definition queryables_link : link :=
  [ ("rel", VStr queryables_rel);
    ("type", VStr "application/schema+json");
    ("title", VStr "Queryables");
    ("href", VStr (build "queryables"));
    ("method", VStr "GET") ].

(** [if self.extension_is_enabled("FilterExtension"): ...append(...)] *)
Definition queryables_links (self : BaseCoreClient) : list link :=
  if extension_is_enabled self "FilterExtension" then [queryables_link]
  else [].

(** [BaseCoreClient.landing_page]. [collections] is
    [collections["collections"]] of the backend's [all_collections] answer. *)
Definition landing_page (mixin : LandingPageMixin) (self : BaseCoreClient)
    (collections : list (gmap string value)) (h : heap)
    : option (outcome LandingPage * heap) :=
  let extension_schemas := extension_schemas_of (extensions self) in
  match conformance_classes self h with
  | None => None
  | Some (classes, h') =>
      let landing_page := _landing_page mixin classes extension_schemas in
      let queryables := queryables_links self in
      match child_links collections with
      | KeyError key => Some (KeyError key, h')
      | Done children =>
          Some (Done
                  {| page_type := page_type landing_page;
                     page_id := page_id landing_page;
                     page_title := page_title landing_page;
                     page_description := page_description landing_page;
                     page_stac_version := page_stac_version landing_page;
                     conformsTo := conformsTo landing_page;
                     links :=
                       links landing_page ++ queryables ++ children
                       ++ [ [ ("rel", VStr "service-desc");
                              ("type",
                               VStr "application/vnd.oai.openapi+json;version=3.0");
                              ("title", VStr "OpenAPI service description");
                              ("href", VStr (build "api")) ];
                            [ ("rel", VStr "service-doc");
                              ("type", VStr "text/html");
                              ("title", VStr "OpenAPI service documentation");
                              ("href", VStr (build "api.html")) ] ];
                     stac_extensions := stac_extensions landing_page |},
                h')
      end
  end.

End Page.

(** [n] successive calls of [list_conformance_classes]. *)
Fixpoint list_conformance_classes_times (n : nat) (self : BaseCoreClient)
    (h : heap) : option heap :=
  match n with
  | O => Some h
  | S n' =>
      match list_conformance_classes self h with
      | None => None
      | Some (_, h') => list_conformance_classes_times n' self h'
      end
  end.

End Landing.

(** ** Sample inputs *)

Module Samples.

Import Models Core Middleware.

Definition sample_descriptions : Descriptions :=
  {| COLLECTION_ID := "Collection ID"; ITEM_ID := "Item ID";
     CRS := "Output CRS"; LIMIT := "Page size"; BBOX := "Bounding box";
     BBOX_CRS := "CRS of the bounding box"; DATETIME := "Time interval";
     FILTER := "Filter expression"; FILTER_LANG := "Filter language";
     FILTER_CRS := "CRS of the filter geometry";
     PAGING_TOKEN := "Paging token" |}.

(** An extension of declared type [FilterExtension] contributing the filter
    request models. *)
Definition filter_extension : ApiExtension :=
  {| type_name := "FilterExtension";
     ext_conformance_classes :=
       Some ["http://www.opengis.net/spec/ogcapi-features-3/1.0/conf/filter";
             "https://api.stacspec.org/v1.0.0-rc.1/item-search#filter"];
     schema_href := None;
     get_request_model := fun verb =>
       if bool_decide (verb = "GET") then Some FilterExtensionGetRequest
       else if bool_decide (verb = "POST") then Some FilterExtensionPostRequest
       else None |}.

(** An extension of declared type [CrsExtension]; it repeats one class of
    [filter_extension]. *)
Definition crs_extension : ApiExtension :=
  {| type_name := "CrsExtension";
     ext_conformance_classes :=
       Some ["http://www.opengis.net/spec/ogcapi-features-2/1.0/conf/crs";
             "https://api.stacspec.org/v1.0.0-rc.1/item-search#filter"];
     schema_href := None;
     get_request_model := fun verb =>
       if bool_decide (verb = "GET") then Some CrsExtensionGetRequest
       else if bool_decide (verb = "POST") then Some CrsExtensionPostRequest
       else None |}.

(** [limit: int = Field(default=10, ge=1, le=bound)] *)
Definition limit_field (bound : Z) : FieldInfo :=
  {| param := FieldP; default := VInt 10; default_factory := None;
     alias := None; alias_priority := None;
     title := None; description := None; const := None;
     gt := None; ge := Some 1%Z; lt := None; le := Some bound;
     multiple_of := None; min_items := None; max_items := None;
     min_length := None; max_length := None; regex := None; extra := [] |}.

(** A body model with a required field (a declaration without right-hand
    side has pydantic's [Undefined] as default) and a defaulted one. *)
Definition ItemsPostRequest : class :=
  pydantic_class "ItemsPostRequest" [BaseModel]
    [ ("collections", "List[str]", Val VUndefined);
      ("limit", "int", Val (VInt 10)) ].

(** A mixin that declares [limit] again, with another default. *)
Definition SmallPages : class :=
  pydantic_class "SmallPages" [BaseModel]
    [ ("limit", "int", Val (VInt 100)) ].

(** A body model whose [limit] is bounded through [Field]. *)
Definition BoundedPostRequest : class :=
  pydantic_class "BoundedPostRequest" [BaseModel]
    [ ("limit", "int", Info (limit_field 10000)) ].

Definition core_class : string := "https://api.stacspec.org/v1.0.0-rc.1/core".

End Samples.

(** ** Sample inputs for the landing page *)

Module LandingSamples.

Import Landing.

Definition build (path : string) : string :=
  ("https://stac.example.org/" ++ path)%string.

Definition vocabulary : Vocabulary :=
  {| Relations_self := "self"; Relations_root := "root";
     Relations_conformance := "conformance"; Relations_search := "search";
     Relations_child := "child";
     MimeTypes_json := "application/json";
     MimeTypes_geojson := "application/geo+json" |}.

Definition mixin : LandingPageMixin :=
  {| stac_version := "1.0.0"; landing_page_id := "stac-fastapi";
     title := "stac-fastapi"; description := "stac-fastapi" |}.

(** A collection with a title, one whose title is empty, one without. *)
Definition collections : list (gmap string value) :=
  [ {[ "id" := VStr "dem"; "title" := VStr "Elevation model" ]};
    {[ "id" := VStr "ortho"; "title" := VStr "" ]};
    {[ "id" := VStr "lidar" ]} ].

(** A collection that lacks its id. *)
Definition broken_collection : gmap string value :=
  {[ "title" := VStr "No id" ]}.

End LandingSamples.

(** * Properties *)

(** ** The request-model composer *)

Module ModelsFacts.

Import Models.

Lemma forallb_elem_false {A} (f : A -> bool) (l : list A) (x : A) :
  x ∈ l -> f x = false -> forallb f l = false.
Proof.
  induction 1 as [y l'|y z l' _ IH]; intros Hx; simpl.
  - by rewrite Hx.
  - rewrite IH by done. apply andb_false_r.
Qed.

Lemma forallb_Forall_true {A} (f : A -> bool) (l : list A) :
  Forall (fun x => f x = true) l -> forallb f l = true.
Proof.
  induction 1 as [|x l' Hx _ IH]; simpl; [done|]. by rewrite Hx, IH.
Qed.

Lemma kind_of_query m :
  kind_of m = QueryKind ->
  issubclass m "APIRequest" = true /\ issubclass m "BaseModel" = false.
Proof.
  unfold kind_of.
  destruct (issubclass m "APIRequest"), (issubclass m "BaseModel");
    by intros.
Qed.

Lemma kind_of_body m :
  kind_of m = BodyKind ->
  issubclass m "APIRequest" = false /\ issubclass m "BaseModel" = true.
Proof.
  unfold kind_of.
  destruct (issubclass m "APIRequest"), (issubclass m "BaseModel");
    by intros.
Qed.

(** The composer's list always starts with the base model. *)
Lemma request_models_base base_model extensions mixins request_type :
  exists rest,
    request_models base_model extensions mixins request_type
    = base_model :: rest.
Proof. unfold request_models. simpl. eauto. Qed.

(** *** Collecting inherited attributes *)

Lemma collect_fresh (l : list Attribute) (taken : list string) :
  NoDup (a_name <$> l) ->
  (forall a, a ∈ l -> a_name a ∉ taken) ->
  collect l taken = l.
Proof.
  revert taken. induction l as [|a l IH]; intros taken Hnd Hfresh; simpl.
  - done.
  - rewrite fmap_cons in Hnd. apply NoDup_cons in Hnd as [Ha Hnd].
    rewrite bool_decide_eq_false_2 by (apply Hfresh; left).
    f_equal. apply IH; [done|].
    intros b Hb [Heq|Hin]%elem_of_cons.
    + apply Ha. rewrite <- Heq. by apply list_elem_of_fmap_2.
    + apply (Hfresh b); [by right | done].
Qed.

(** The names collected are never repeated, whatever the bases declare. *)
Lemma collect_names_NoDup (l : list Attribute) (taken : list string) :
  NoDup (a_name <$> collect l taken)
  /\ forall a, a ∈ collect l taken -> a ∈ l /\ a_name a ∉ taken.
Proof.
  revert taken. induction l as [|a l IH]; intros taken; simpl.
  - split; [constructor | by intros a Ha%elem_of_nil].
  - case_bool_decide as Ht.
    + destruct (IH taken) as [Hnd Hsub]. split; [done|].
      intros b Hb. destruct (Hsub b Hb). split; [by right | done].
    + destruct (IH (a_name a :: taken)) as [Hnd Hsub]. split.
      * rewrite fmap_cons. apply NoDup_cons. split; [|done].
        intros (b & Heq & Hb)%list_elem_of_fmap.
        destruct (Hsub b Hb) as [_ Hnot]. apply Hnot. rewrite Heq. left.
      * intros b [->|Hb]%elem_of_cons; [split; [left | done]|].
        destruct (Hsub b Hb) as [Hin Hnot]. split; [by right|].
        intros Hbt. apply Hnot. by right.
Qed.

(** *** Flattening the fields of body models *)

Definition rederive (v : ModelField) : string * FieldInfo :=
  (outer_type_ v, body_of (field_info v)).

Lemma add_model_fields_union model acc :
  add_model_fields model acc = (rederive <$> fields model) ∪ acc.
Proof.
  unfold add_model_fields.
  apply (map_fold_weak_ind
           (fun r (m : gmap string ModelField) => r = (rederive <$> m) ∪ acc)).
  - by rewrite fmap_empty, (left_id_L ∅ (∪)).
  - intros k v m r _ ->. by rewrite fmap_insert, insert_union_l.
Qed.

Lemma flatten_untouched (post : list class) acc (k : string) :
  (forall m', m' ∈ post -> fields m' !! k = None) ->
  foldl (fun acc model => add_model_fields model acc) acc post !! k = acc !! k.
Proof.
  revert acc. induction post as [|m post IH]; intros acc Hpost; simpl; [done|].
  rewrite IH by (intros m' Hm'; apply Hpost; by right).
  rewrite add_model_fields_union, lookup_union_r; [done|].
  rewrite lookup_fmap, Hpost; [done | left].
Qed.

Lemma flatten_last_wins (pre post : list class) m acc (k : string) v :
  fields m !! k = Some v ->
  (forall m', m' ∈ post -> fields m' !! k = None) ->
  foldl (fun acc model => add_model_fields model acc) acc (pre ++ m :: post) !! k
  = Some (rederive v).
Proof.
  intros Hk Hpost. rewrite foldl_app. simpl.
  rewrite flatten_untouched by done.
  rewrite add_model_fields_union. apply lookup_union_Some_l.
  by rewrite lookup_fmap, Hk.
Qed.

(** A field is declared by some model exactly when it is in the dict. *)
Lemma flatten_dom (models : list class) acc (k : string) :
  is_Some (foldl (fun acc model => add_model_fields model acc) acc models !! k)
  <-> is_Some (acc !! k) \/ exists m, m ∈ models /\ is_Some (fields m !! k).
Proof.
  revert acc. induction models as [|m models IH]; intros acc; simpl.
  - split; [by left|]. intros [H|(m & []%elem_of_nil & _)]. done.
  - rewrite IH, add_model_fields_union, lookup_union_is_Some, lookup_fmap,
      fmap_is_Some.
    split.
    + intros [[Hm|Hacc]|(m' & Hm' & Hk)].
      * right. exists m. split; [left | done].
      * by left.
      * right. exists m'. split; [by right | done].
    + intros [Hacc|(m' & [->|Hm']%elem_of_cons & Hk)].
      * left. by right.
      * left. by left.
      * right. by exists m'.
Qed.


Lemma forallb_true_Forall {A} (f : A -> bool) (l : list A) :
  forallb f l = true -> Forall (fun x => f x = true) l.
Proof.
  induction l as [|y l IH]; simpl; [constructor|].
  intros [Hy Hl]%andb_prop. constructor; [done | by apply IH].
Qed.

(** *** Class creation *)

Lemma mjoin_cons {A} (l : list A) (ls : list (list A)) :
  mjoin (l :: ls) = l ++ mjoin ls.
Proof. reflexivity. Qed.

(** The merge has fuel enough: every step takes one name off some list, so
    with as much fuel as there are names the result does not depend on the
    fuel, and a merge that fails is stuck. *)
Lemma live_names (seqs : list (list string)) :
  length (mjoin (filter (fun seq => seq <> []) seqs)) = length (mjoin seqs).
Proof.
  induction seqs as [|seq seqs IH]; [done|].
  rewrite filter_cons. destruct (decide (seq <> [])) as [Hne|He].
  - rewrite !mjoin_cons, !length_app. f_equal. exact IH.
  - destruct seq; [|by destruct He]. exact IH.
Qed.

Lemma drop_head_names (h : string) (seqs : list (list string)) :
  length (mjoin (drop_head h seqs)) <= length (mjoin seqs).
Proof.
  induction seqs as [|seq seqs IH]; [done|].
  unfold drop_head in *. rewrite fmap_cons, !mjoin_cons, !length_app.
  destruct seq as [|x rest]; [cbn [length]; lia|].
  case_bool_decide; cbn [length]; lia.
Qed.

Lemma drop_head_takes (h : string) (seqs : list (list string)) :
  h ∈ omap head seqs ->
  length (mjoin (drop_head h seqs)) < length (mjoin seqs).
Proof.
  induction seqs as [|seq seqs IH]; [by intros ?%elem_of_nil|].
  pose proof (drop_head_names h seqs) as Hle.
  unfold drop_head in *. rewrite fmap_cons, !mjoin_cons, !length_app.
  destruct seq as [|x rest]; cbn [omap list_omap head].
  - intros Hh%IH. cbn [length]. lia.
  - intros [->|Hh]%elem_of_cons.
    + rewrite bool_decide_eq_true_2 by done. cbn [length]. lia.
    + apply IH in Hh. case_bool_decide; cbn [length]; lia.
Qed.

Lemma next_head_elem (seqs : list (list string)) (h : string) :
  next_head seqs = Some h -> h ∈ omap head seqs.
Proof.
  unfold next_head. intros Hh.
  apply head_Some_elem_of in Hh.
  by apply (list_elem_of_filter (fun h => good_head seqs h = true)) in Hh
    as [_ ?].
Qed.

Lemma live_cons_names (seqs : list (list string)) seq live :
  filter (fun seq => seq <> []) seqs = seq :: live ->
  0 < length (mjoin seqs).
Proof.
  intros Hlive.
  rewrite <- (live_names seqs), Hlive, mjoin_cons, length_app.
  assert (seq ∈ filter (fun seq => seq <> []) seqs) as Hin
    by (rewrite Hlive; left).
  apply (list_elem_of_filter (fun seq => seq <> [])) in Hin as [Hne _].
  destruct seq; [done|]. cbn [length]. lia.
Qed.

Lemma merge_fuel (fuel fuel' : nat) (seqs : list (list string)) :
  length (mjoin seqs) <= fuel -> length (mjoin seqs) <= fuel' ->
  merge fuel seqs = merge fuel' seqs.
Proof.
  revert fuel' seqs. induction fuel as [|fuel IH]; intros fuel' seqs Hf Hf'.
  - destruct fuel'; cbn [merge];
      destruct (filter _ seqs) as [|seq live] eqn:Hlive; try done;
      apply live_cons_names in Hlive; lia.
  - destruct fuel' as [|fuel']; cbn [merge];
      destruct (filter _ seqs) as [|seq live] eqn:Hlive; try done.
    + apply live_cons_names in Hlive. lia.
    + destruct (next_head (seq :: live)) as [h|] eqn:Hh; [|done].
      pose proof (drop_head_takes h _ (next_head_elem _ _ Hh)) as Hlt.
      assert (length (mjoin (seq :: live)) = length (mjoin seqs)) as Hsame
        by (rewrite <- Hlive; apply live_names).
      rewrite (IH fuel' (drop_head h (seq :: live))) by lia. done.
Qed.

Lemma merge_bases_fuel (orders : list (list string)) (bases : list class)
    (more : nat) :
  bases <> [] ->
  merge_bases orders bases
  = merge (length (mjoin orders) + length bases + more)
      (orders ++ [cls_name <$> bases]).
Proof.
  intros Hne. unfold merge_bases. destruct bases as [|b bases]; [done|].
  apply merge_fuel;
    rewrite join_app, length_app, mjoin_cons, app_nil_r, length_fmap;
    cbn [length]; lia.
Qed.

Lemma duplicate_base_NoDup (bases : list class) :
  NoDup (cls_name <$> bases) -> duplicate_base bases = None.
Proof.
  induction bases as [|b bases IH]; [done|].
  cbn [duplicate_base]. rewrite fmap_cons. intros [Hb Hnd]%NoDup_cons.
  rewrite bool_decide_eq_false_2 by done. by apply IH.
Qed.

(** [attr.make_class] returns on bases that are distinct, have a
    consistent resolution order and whose collected attributes put no
    mandatory one after a defaulted one. *)
Lemma make_class_Return (name : string) (bases : list class)
    (order : list string) :
  NoDup (cls_name <$> bases) ->
  linearize bases = inr order ->
  mandatory_after_default false (collect_base_attrs bases []) = false ->
  make_class name [] bases
  = Return (mkClass name bases (collect_base_attrs bases []) ∅ []).
Proof.
  intros Hnd Hlin Hord. unfold make_class.
  rewrite (duplicate_base_NoDup _ Hnd), Hlin.
  change (a_name <$> @nil Attribute) with (@nil string).
  rewrite app_nil_r, Hord. done.
Qed.

(** What [attr.make_class] returns, when it returns. *)
Lemma make_class_inv (name : string) (bases : list class) (cls : class) :
  make_class name [] bases = Return cls ->
  cls = mkClass name bases (collect_base_attrs bases []) ∅ [].
Proof.
  unfold make_class. destruct (duplicate_base bases); [done|].
  destruct (linearize bases); [done|].
  change (a_name <$> @nil Attribute) with (@nil string).
  rewrite app_nil_r.
  destruct (mandatory_after_default false _); [done|]. by intros [= <-].
Qed.


(** *** Acceptance by pydantic *)

Lemma body_of_accepted (fi : FieldInfo) :
  rederivable fi = true ->
  default_and_factory (body_of fi) = false /\ type_bound (body_of fi) = false.
Proof.
  unfold rederivable, default_and_factory.
  intros [Hfac Hbound%negb_true_iff]%andb_prop.
  apply bool_decide_eq_true in Hfac. split; [|done].
  cbn. rewrite Hfac. apply andb_false_r.
Qed.

Lemma flatten_image (P : ModelField -> Prop) (models : list class)
    (acc : gmap string (string * FieldInfo)) :
  (forall k tf, acc !! k = Some tf -> exists v, tf = rederive v /\ P v) ->
  (forall m k v, m ∈ models -> fields m !! k = Some v -> P v) ->
  forall k tf,
    foldl (fun acc model => add_model_fields model acc) acc models !! k
    = Some tf ->
    exists v, tf = rederive v /\ P v.
Proof.
  revert acc. induction models as [|m models IH]; intros acc Hacc HP; simpl.
  - exact Hacc.
  - apply IH; [|intros m' k v Hm'; apply HP; by right].
    intros k tf. rewrite add_model_fields_union.
    intros [Hm|[_ Ha]]%lookup_union_Some_raw; [|eauto].
    rewrite lookup_fmap in Hm.
    destruct (fields m !! k) as [v|] eqn:Hv; [|done]. injection Hm as <-.
    exists v. split; [done|]. apply (HP m k); [left | done].
Qed.

(** [pydantic.create_model] returns when every pair is acceptable. *)
Lemma create_model_Return (name : string)
    (fields_ : gmap string (string * FieldInfo)) (base : class) :
  map_Forall (fun _ tf => default_and_factory tf.2 = false
                          /\ type_bound tf.2 = false) fields_ ->
  create_model name fields_ base
  = Return (mkClass name [base] []
              (((fun tf => mkModelField tf.2 tf.1) <$> fields_) ∪ fields base)
              []).
Proof. intros Hok. unfold create_model. by rewrite bool_decide_eq_true_2. Qed.

(** *** The error paths of class creation, on the declared classes *)

(** A model contributed twice is a repeated base. *)
Example repeated_base_is_refused :
  create_request_model "SearchGetRequest" EmptyRequest
    (Some [Samples.crs_extension; Samples.crs_extension]) None "GET"
  = Raise (TypeError "duplicate base class CrsExtensionGetRequest").
Proof. reflexivity. Qed.

(** A base that is an ancestor of a later one leaves no consistent
    resolution order. *)
Example ancestor_before_descendant_is_refused :
  create_request_model "SearchGetRequest" APIRequest
    (Some [Samples.crs_extension]) None "GET"
  = Raise (TypeError (mro_message ["APIRequest"; "CrsExtensionGetRequest"]))
  /\ create_request_model "ItemGetRequest"
       (CollectionUri Samples.sample_descriptions) None
       (Some [ItemUri Samples.sample_descriptions]) "GET"
     = Raise (TypeError (mro_message ["CollectionUri"; "ItemUri"])).
Proof. split; reflexivity. Qed.

(** An attribute without default after the defaulted ones of an earlier
    base. *)
Example mandatory_after_default_is_refused :
  create_request_model "PagedGetRequest" GETPagination None
    (Some [mkClass "Required" [APIRequest]
             [mkAttribute "collections" "str" NOTHING None] ∅ []]) "GET"
  = Raise ValueError.
Proof. reflexivity. Qed.

(** A field declared with a default factory is re-derived with the default
    [None] beside the factory. *)
Example default_factory_is_refused :
  create_request_model "SearchPostRequest"
    (pydantic_class "IdsPostRequest" [BaseModel]
       [ ("ids", "List[str]",
          Info {| param := FieldP; default := VUndefined;
                  default_factory := Some "list";
                  alias := None; alias_priority := None; title := None;
                  description := None; const := None;
                  gt := None; ge := None; lt := None; le := None;
                  multiple_of := None; min_items := None; max_items := None;
                  min_length := None; max_length := None; regex := None;
                  extra := [] |}) ])
    None None "POST"
  = Raise ValueError.
Proof. reflexivity. Qed.



(** *** The claims *)

(** C1. A model list that holds a query-parameter model (a subclass of
    [APIRequest] only) and a body model (a subclass of [BaseModel] only)
    makes [create_request_model] raise the [TypeError]; no composed model is
    returned. *)
Theorem mixed_kinds_raise_TypeError
    (model_name : string) (base_model : class)
    (extensions : option (list ApiExtension)) (mixins : option (list class))
    (request_type : string) (m_query m_body : class) :
  m_query ∈ request_models base_model extensions mixins request_type ->
  m_body ∈ request_models base_model extensions mixins request_type ->
  kind_of m_query = QueryKind ->
  kind_of m_body = BodyKind ->
  create_request_model model_name base_model extensions mixins request_type
  = Raise (TypeError mixed_message).
Proof.
  intros Hq Hb [_ HqB]%kind_of_query [HbA _]%kind_of_body.
  unfold create_request_model.
  rewrite (forallb_elem_false _ _ m_body Hb HbA).
  by rewrite (forallb_elem_false _ _ m_query Hq HqB).
Qed.

Lemma mixed_kinds_raise_TypeError_witness :
  create_request_model "SearchGetRequest"
    (CollectionUri Samples.sample_descriptions)
    (Some [Samples.filter_extension]) (Some [POSTTokenPagination]) "GET"
  = Raise (TypeError mixed_message).
Proof.
  apply (mixed_kinds_raise_TypeError _ _ _ _ _
           (CollectionUri Samples.sample_descriptions) POSTTokenPagination).
  - vm_compute. left.
  - vm_compute. right. right. left.
  - vm_compute. reflexivity.
  - vm_compute. reflexivity.
Defined.

(** C2, as stated, fails. A base without fields given again as mixin
    shares no field name with itself, yet Python refuses the repeated base;
    it refuses [APIRequest] as base before a model that derives from it;
    and the composition with the CRS extension returns a class without
    [crs] and [bbox-crs], which [CrsExtensionGetRequest] declares as plain
    class attributes. *)
Lemma repeated_base_and_plain_declarations :
  Forall (fun m => kind_of m = QueryKind)
    (request_models EmptyRequest None (Some [EmptyRequest]) "GET")
  /\ NoDup (a_name <$>
              mjoin (attrs_attrs <$>
                       request_models EmptyRequest None (Some [EmptyRequest])
                         "GET"))
  /\ create_request_model "SearchGetRequest" EmptyRequest None
       (Some [EmptyRequest]) "GET"
     = Raise (TypeError "duplicate base class EmptyRequest")
  /\ Forall (fun m => kind_of m = QueryKind)
       (request_models APIRequest (Some [Samples.crs_extension]) None "GET")
  /\ create_request_model "SearchGetRequest" APIRequest
       (Some [Samples.crs_extension]) None "GET"
     = Raise (TypeError
                (mro_message ["APIRequest"; "CrsExtensionGetRequest"]))
  /\ Forall (fun m => kind_of m = QueryKind)
       (request_models (CollectionUri Samples.sample_descriptions)
          (Some [Samples.crs_extension]) None "GET")
  /\ NoDup (mjoin ((fun m => (a_name <$> attrs_attrs m)
                              ++ (fst <$> namespace m)) <$>
                     request_models (CollectionUri Samples.sample_descriptions)
                       (Some [Samples.crs_extension]) None "GET"))
  /\ match create_request_model "SearchGetRequest"
             (CollectionUri Samples.sample_descriptions)
             (Some [Samples.crs_extension]) None "GET" with
     | Return cls =>
         namespace CrsExtensionGetRequest
         = [ ("crs", Val (VStr CRS84));
             ("bbox_crs", Info (Field (VStr CRS84) (Some "bbox-crs"))) ]
         /\ CrsExtensionGetRequest ∈ cls_bases cls
         /\ a_name <$> attrs_attrs cls = ["collection_id"]
         /\ get_parameter cls "crs" = None
         /\ get_parameter cls "bbox-crs" = None
     | Raise _ => False
     end.
Proof.
  split; [repeat constructor|]. split; [constructor|].
  split; [reflexivity|]. split; [repeat constructor|].
  split; [reflexivity|]. split; [repeat constructor|].
  split; [apply (bool_decide_unpack _); vm_compute; exact I|].
  vm_compute.
  split; [reflexivity|]. split; [right; left|]. done.
Qed.

(** C2, amended. For query-parameter models that Python and attrs accept
    as bases (no class twice, a consistent resolution order, no mandatory
    attribute after a defaulted one) and whose attribute names are pairwise
    distinct, the GET composition returns a class named as asked, whose
    bases are the input models in list order (base first) and whose
    attributes are exactly the input models' [attr.ib] attributes, each one
    unchanged (name, type, default object with its alias, converter). *)
Theorem get_model_is_union
    (model_name : string) (base_model : class)
    (extensions : option (list ApiExtension)) (mixins : option (list class))
    (order : list string) :
  Forall (fun m => kind_of m = QueryKind)
         (request_models base_model extensions mixins "GET") ->
  NoDup (a_name <$>
           mjoin (attrs_attrs <$>
                    request_models base_model extensions mixins "GET")) ->
  NoDup (cls_name <$> request_models base_model extensions mixins "GET") ->
  linearize (request_models base_model extensions mixins "GET") = inr order ->
  mandatory_after_default false
    (mjoin (attrs_attrs <$> request_models base_model extensions mixins "GET"))
  = false ->
  exists cls,
    create_request_model model_name base_model extensions mixins "GET"
    = Return cls
    /\ cls_name cls = model_name
    /\ cls_bases cls = request_models base_model extensions mixins "GET"
    /\ attrs_attrs cls
       = mjoin (attrs_attrs <$>
                   request_models base_model extensions mixins "GET")
    /\ forall a, a ∈ attrs_attrs cls <->
         exists m, m ∈ request_models base_model extensions mixins "GET"
                   /\ a ∈ attrs_attrs m.
Proof.
  intros Hkind Hnd Hbases Hlin Hord.
  set (models := request_models base_model extensions mixins "GET") in *.
  assert (Hattrs : collect_base_attrs models []
                   = mjoin (attrs_attrs <$> models)).
  { unfold collect_base_attrs.
    apply collect_fresh; [done|]. intros a _. apply not_elem_of_nil. }
  exists (mkClass model_name models (collect_base_attrs models []) ∅ []).
  unfold create_request_model. fold models.
  rewrite forallb_Forall_true.
  2:{ eapply Forall_impl; [exact Hkind|]. by intros m [? _]%kind_of_query. }
  split.
  { apply (make_class_Return _ _ order); [done..|]. by rewrite Hattrs. }
  split; [done|]. split; [done|]. cbn [attrs_attrs].
  split; [exact Hattrs|].
  intros a. rewrite Hattrs. rewrite list_elem_of_join. split.
  - intros (l & Ha & (m & -> & Hm)%list_elem_of_fmap). eauto.
  - intros (m & Hm & Ha). exists (attrs_attrs m). split; [done|].
    by apply list_elem_of_fmap_2.
Qed.

Lemma get_model_is_union_witness :
  exists cls,
    create_request_model "SearchGetRequest"
      (CollectionUri Samples.sample_descriptions)
      (Some [Samples.filter_extension])
      (Some [GETTokenPagination Samples.sample_descriptions]) "GET"
    = Return cls
    /\ a_name <$> attrs_attrs cls = ["collection_id"; "filter"; "pt"].
Proof.
  destruct (get_model_is_union "SearchGetRequest"
              (CollectionUri Samples.sample_descriptions)
              (Some [Samples.filter_extension])
              (Some [GETTokenPagination Samples.sample_descriptions])
              ["CollectionUri"; "FilterExtensionGetRequest";
               "GETTokenPagination"; "APIRequest"; "object"])
    as (cls & Hcls & _ & _ & Hattrs & _).
  - vm_compute. repeat constructor.
  - apply (bool_decide_unpack _). vm_compute. exact I.
  - apply (bool_decide_unpack _). vm_compute. exact I.
  - vm_compute. reflexivity.
  - vm_compute. reflexivity.
  - exists cls. split; [exact Hcls|]. rewrite Hattrs. reflexivity.
Defined.

(** C3, as stated, fails. With base [ItemsPostRequest] and mixin
    [SmallPages], the required field [collections] (default [Undefined]) is
    re-derived with default [None], the base's [limit] (default 10) appears
    with the mixin's default 100, and its empty [extra] appears as
    [{"extra": {}}]; with a base whose [limit] is bounded, no model is
    returned. *)
Lemma post_rederivation_differs :
  match create_request_model "SearchPostRequest" Samples.ItemsPostRequest
          None (Some [Samples.SmallPages]) "POST" with
  | Return cls =>
      (default ∘ field_info <$> fields Samples.ItemsPostRequest !! "collections")
      = Some VUndefined
      /\ (default ∘ field_info <$> fields cls !! "collections") = Some VNone
      /\ (default ∘ field_info <$> fields Samples.ItemsPostRequest !! "limit")
         = Some (VInt 10)
      /\ (default ∘ field_info <$> fields cls !! "limit") = Some (VInt 100)
      /\ (extra ∘ field_info <$> fields Samples.ItemsPostRequest !! "limit")
         = Some []
      /\ (extra ∘ field_info <$> fields Samples.SmallPages !! "limit")
         = Some []
      /\ (extra ∘ field_info <$> fields cls !! "limit")
         = Some [("extra", MDict [])]
  | Raise _ => False
  end
  /\ kind_of Samples.BoundedPostRequest = BodyKind
  /\ (ge ∘ field_info <$> fields Samples.BoundedPostRequest !! "limit")
     = Some (Some 1%Z)
  /\ create_request_model "SearchPostRequest" Samples.BoundedPostRequest
       None None "POST"
     = Raise ValueError.
Proof. vm_compute. repeat split. Qed.

(** C3, amended. For body models whose fields declare neither a default
    factory nor a numeric or items bound, the POST composition returns a
    class named as asked whose only base is the base model; its field names
    are those of the input models, and each is bound to the body parameter
    re-derived from its last declaration in list order (its only one when
    names are distinct): same alias, alias-priority, title, description,
    const, length bounds and pattern, the declared default, or [None]
    where the declaration has none, and, for a declaration without length
    bound and pattern, the same type. *)
Theorem post_model_flattens
    (model_name : string) (base_model : class)
    (extensions : option (list ApiExtension)) (mixins : option (list class)) :
  Forall (fun m => kind_of m = BodyKind)
         (request_models base_model extensions mixins "POST") ->
  (forall m k v,
     m ∈ request_models base_model extensions mixins "POST" ->
     fields m !! k = Some v -> rederivable (field_info v) = true) ->
  exists cls,
    create_request_model model_name base_model extensions mixins "POST"
    = Return cls
    /\ cls_name cls = model_name
    /\ cls_bases cls = [base_model]
    /\ (forall k,
          is_Some (fields cls !! k) <->
          exists m,
            m ∈ request_models base_model extensions mixins "POST"
            /\ is_Some (fields m !! k))
    /\ forall pre m post k v,
         request_models base_model extensions mixins "POST"
         = pre ++ m :: post ->
         fields m !! k = Some v ->
         (forall m', m' ∈ post -> fields m' !! k = None) ->
         exists body, 
           (field_info <$> fields cls !! k) = Some body
           /\ param body = BodyP
           /\ default body
              = (if is_UndefinedType (default (field_info v)) then VNone
                 else default (field_info v))
           /\ alias body = alias (field_info v)
           /\ alias_priority body = alias_priority (field_info v)
           /\ title body = title (field_info v)
           /\ description body = description (field_info v)
           /\ const body = const (field_info v)
           /\ min_length body = min_length (field_info v)
           /\ max_length body = max_length (field_info v)
           /\ regex body = regex (field_info v)
           /\ (min_length (field_info v) = None ->
               max_length (field_info v) = None ->
               regex (field_info v) = None ->
               (outer_type_ <$> fields cls !! k) = Some (outer_type_ v)).
Proof.
  intros Hkind Hok.
  set (models := request_models base_model extensions mixins "POST") in *.
  destruct (request_models_base base_model extensions mixins "POST")
    as [rest Hmodels]. fold models in Hmodels.
  assert (Hbase : kind_of base_model = BodyKind).
  { rewrite Hmodels in Hkind. by apply Forall_cons in Hkind as [? _]. }
  apply kind_of_body in Hbase as [HbaseA _].
  set (flat := foldl (fun acc model => add_model_fields model acc) ∅ models).
  assert (Hflat : map_Forall
                    (fun _ tf => default_and_factory tf.2 = false
                                 /\ type_bound tf.2 = false) flat).
  { intros k tf Hk.
    destruct (flatten_image (fun v => rederivable (field_info v) = true)
                models ∅) with (k := k) (tf := tf) as (v & -> & Hv);
      [intros k' tf'; by rewrite lookup_empty | exact Hok | exact Hk |].
    by apply body_of_accepted. }
  eexists. unfold create_request_model. fold models. fold flat.
  rewrite (forallb_elem_false _ models base_model).
  2:{ rewrite Hmodels. left. }
  2:{ exact HbaseA. }
  rewrite forallb_Forall_true.
  2:{ eapply Forall_impl; [exact Hkind|]. by intros m [_ ?]%kind_of_body. }
  split; [by apply create_model_Return|].
  split; [done|]. split; [done|]. split.
  { intros k. cbn [fields].
    rewrite lookup_union_is_Some, lookup_fmap, fmap_is_Some.
    unfold flat. rewrite flatten_dom, lookup_empty. split.
    - intros [[[? [=]]|Hm]|Hb]; [done|].
      exists base_model. split; [|done]. rewrite Hmodels. left.
    - intros Hm. left. by right. }
  intros pre m post k v Hsplit Hk Hpost.
  match goal with
  | |- context [fields ?c !! k] =>
      assert (Hlook : fields c !! k
                      = Some (mkModelField (body_of (field_info v))
                                (outer_type_ v)))
  end.
  { pose proof (flatten_last_wins pre post m ∅ k v Hk Hpost) as Hlast.
    rewrite <- Hsplit in Hlast. fold flat in Hlast.
    cbn [fields]. rewrite lookup_union, lookup_fmap, Hlast. cbn.
    by destruct (fields base_model !! k). }
  exists (body_of (field_info v)). rewrite Hlook. repeat split.
Qed.

Lemma post_model_flattens_witness :
  exists cls,
    create_request_model "SearchPostRequest" Samples.ItemsPostRequest
      (Some [Samples.filter_extension]) (Some [Samples.SmallPages]) "POST"
    = Return cls
    /\ (alias ∘ field_info <$> fields cls !! "filter_crs")
       = Some (Some "filter-crs")
    /\ (default ∘ field_info <$> fields cls !! "limit") = Some (VInt 100).
Proof.
  destruct (post_model_flattens "SearchPostRequest" Samples.ItemsPostRequest
              (Some [Samples.filter_extension]) (Some [Samples.SmallPages]))
    as (cls & Hcls & _ & _ & _ & Hfields).
  - vm_compute. repeat constructor.
  - intros m k v Hm Hv.
    assert (map_Forall (fun _ v => rederivable (field_info v) = true)
              (fields m)) as Hall; [|by apply (Hall k)].
    vm_compute in Hm.
    apply elem_of_cons in Hm as [->|Hm];
      [|apply elem_of_cons in Hm as [->|Hm];
        [|apply list_elem_of_singleton in Hm as ->]];
      apply (bool_decide_unpack _); vm_compute; exact I.
  - exists cls. split; [exact Hcls|]. split.
    + destruct (Hfields [Samples.ItemsPostRequest] FilterExtensionPostRequest
                  [Samples.SmallPages] "filter_crs"
                  (mkModelField (Field (VStr CRS84) (Some "filter-crs"))
                     "Optional[crs_url]"))
        as (body & Hbody & _ & _ & Halias & _).
      * reflexivity.
      * vm_compute. reflexivity.
      * intros m' ->%list_elem_of_singleton. vm_compute. reflexivity.
      * destruct (fields cls !! "filter_crs") as [w|]; simpl in Hbody; [|done].
        injection Hbody as <-. cbn. f_equal. exact Halias.
    + destruct (Hfields [Samples.ItemsPostRequest; FilterExtensionPostRequest]
                  Samples.SmallPages [] "limit"
                  (mkModelField (Field (VInt 100) None) "int"))
        as (body & Hbody & _ & Hdefault & _).
      * reflexivity.
      * vm_compute. reflexivity.
      * intros m' Hm'. exfalso. exact (proj1 (elem_of_nil m') Hm').
      * destruct (fields cls !! "limit") as [w|]; simpl in Hbody; [|done].
        injection Hbody as <-. cbn. f_equal. exact Hdefault.
Defined.

(** C10. Whatever extensions an application enables (the class statements
    take none), [ItemUri] declares [crs] with the CRS84 default, and
    [ItemCollectionUri] declares [limit] (10), [bbox], [datetime], [crs],
    [bbox-crs], [filter-crs] (all CRS84), [filter] ([None]) and
    [filter-lang] (["cql-json"]). *)
Theorem uri_models_declare_crs_and_filter (descriptions : Descriptions) :
  (parameter_default <$> get_parameter (ItemUri descriptions) "crs")
  = Some (VStr CRS84)
  /\ (parameter_default <$> get_parameter (ItemCollectionUri descriptions) "limit")
     = Some (VInt 10)
  /\ (parameter_default <$> get_parameter (ItemCollectionUri descriptions) "bbox")
     = Some VNone
  /\ (parameter_default <$> get_parameter (ItemCollectionUri descriptions) "datetime")
     = Some VNone
  /\ (parameter_default <$> get_parameter (ItemCollectionUri descriptions) "crs")
     = Some (VStr CRS84)
  /\ (parameter_default <$> get_parameter (ItemCollectionUri descriptions) "bbox-crs")
     = Some (VStr CRS84)
  /\ (parameter_default <$> get_parameter (ItemCollectionUri descriptions) "filter-crs")
     = Some (VStr CRS84)
  /\ (parameter_default <$> get_parameter (ItemCollectionUri descriptions) "filter")
     = Some VNone
  /\ (parameter_default <$> get_parameter (ItemCollectionUri descriptions) "filter-lang")
     = Some (VStr "cql-json")
  /\ kind_of (ItemUri descriptions) = QueryKind
  /\ kind_of (ItemCollectionUri descriptions) = QueryKind.
Proof. repeat split. Qed.

End ModelsFacts.

(** ** The core client's registry *)

Module CoreFacts.

Import Core.

Lemma foldl_extension_classes (l : list string) (es : list ApiExtension) :
  foldl (fun acc extension => acc ++ extension_classes extension) l es
  = l ++ (es ≫= extension_classes).
Proof.
  revert l. induction es as [|e es IH]; intros l; simpl.
  - by rewrite app_nil_r.
  - by rewrite IH, <- app_assoc.
Qed.

(** [conformance_classes] works on a copy: the heap is left as it was. *)
Lemma conformance_classes_frame self (h h' : heap) res :
  conformance_classes self h = Some (res, h') -> h' = h.
Proof.
  unfold conformance_classes.
  destruct (h !! base_conformance_classes self); [|done]. by intros [= _ <-].
Qed.

(** [list_conformance_classes] extends the module-level list in place by
    every extension's classes and hands that same list back. *)
Lemma list_conformance_classes_extends self (h : heap) (l : list string) :
  h !! BASE_CONFORMANCE_CLASSES = Some l ->
  list_conformance_classes self h
  = Some (BASE_CONFORMANCE_CLASSES,
          <[BASE_CONFORMANCE_CLASSES :=
              l ++ (extensions self ≫= extension_classes)]> h).
Proof.
  unfold list_conformance_classes. generalize (extensions self) as es.
  intros es. revert h l. induction es as [|e es IH]; intros h l Hl; simpl.
  - by rewrite app_nil_r, insert_id.
  - unfold extend at 2. rewrite Hl.
    rewrite (IH _ (l ++ extension_classes e)) by apply lookup_insert_eq.
    by rewrite insert_insert_eq, <- app_assoc.
Qed.

(** C7. [conformance_classes()] returns, without touching the heap, a list
    without repetition that holds every class of the base list and of every
    extension, and nothing else. *)
Theorem conformance_classes_no_duplicates
    (self : BaseCoreClient) (h : heap) (l : list string) :
  h !! base_conformance_classes self = Some l ->
  exists res,
    conformance_classes self h = Some (res, h)
    /\ NoDup res
    /\ (forall uri, uri ∈ l -> uri ∈ res)
    /\ (forall ext uri,
          ext ∈ extensions self -> uri ∈ extension_classes ext -> uri ∈ res)
    /\ (forall uri, uri ∈ res ->
          uri ∈ l
          \/ exists ext, ext ∈ extensions self /\ uri ∈ extension_classes ext).
Proof.
  intros Hl. unfold conformance_classes. rewrite Hl, foldl_extension_classes.
  eexists. split; [reflexivity|]. split; [apply NoDup_elements|].
  repeat split.
  - intros uri Hin. apply elem_of_elements, elem_of_list_to_set.
    apply elem_of_app. by left.
  - intros ext uri Hext Hin. apply elem_of_elements, elem_of_list_to_set.
    apply elem_of_app. right. apply list_elem_of_bind. eauto.
  - intros uri [Hin|Hin]%elem_of_elements%elem_of_list_to_set%elem_of_app.
    + by left.
    + right. apply list_elem_of_bind in Hin as (ext & ? & ?). eauto.
Qed.

Lemma conformance_classes_no_duplicates_witness :
  exists res,
    conformance_classes
      (new_client [Samples.filter_extension; Samples.crs_extension])
      {[ BASE_CONFORMANCE_CLASSES := [Samples.core_class; Samples.core_class] ]}
    = Some (res,
            {[ BASE_CONFORMANCE_CLASSES :=
                 [Samples.core_class; Samples.core_class] ]})
    /\ NoDup res /\ length res = 4.
Proof.
  destruct (conformance_classes_no_duplicates
              (new_client [Samples.filter_extension; Samples.crs_extension])
              {[ BASE_CONFORMANCE_CLASSES :=
                   [Samples.core_class; Samples.core_class] ]}
              [Samples.core_class; Samples.core_class])
    as (res & Hres & Hnd & _).
  - vm_compute. reflexivity.
  - exists res. split; [exact Hres|]. split; [exact Hnd|].
    vm_compute in Hres. injection Hres as <-. reflexivity.
Defined.

(** C8. [extension_is_enabled(name)] holds exactly when some extension of
    the list has that declared type name; [get_extension(name)] then returns
    the first such extension in list order, and raises [NotFoundError] when
    there is none. *)
Theorem extension_lookup (self : BaseCoreClient) (name : string) :
  (extension_is_enabled self name = true
   <-> exists ext, ext ∈ extensions self /\ type_name ext = name)
  /\ ((exists ext, ext ∈ extensions self /\ type_name ext = name) ->
      exists pre first post,
        extensions self = pre ++ first :: post
        /\ Forall (fun ext => type_name ext <> name) pre
        /\ type_name first = name
        /\ get_extension self name = Return first)
  /\ ((forall ext, ext ∈ extensions self -> type_name ext <> name) ->
      get_extension self name
      = Raise (NotFoundError ("Extenson " ++ name ++ " not found")%string)).
Proof.
  unfold extension_is_enabled, get_extension.
  destruct self as [base es]. simpl. split; [|split].
  - rewrite existsb_exists. split.
    + intros (ext & Hin%list_elem_of_In & Heq%bool_decide_eq_true). eauto.
    + intros (ext & Hin%list_elem_of_In & Heq). exists ext.
      split; [done|]. by apply bool_decide_eq_true.
  - intros (ext & Hin & Heq).
    destruct (filter (fun ext0 => type_name ext0 = name) es)
      as [|first matches] eqn:Hfilter.
    + assert (ext ∈ filter (fun ext0 => type_name ext0 = name) es) as Hmem
        by (by apply list_elem_of_filter).
      rewrite Hfilter in Hmem. by apply elem_of_nil in Hmem.
    + assert (head (filter (fun ext0 => type_name ext0 = name) es)
              = Some first) as Hhead by (by rewrite Hfilter).
      apply head_filter_Some in Hhead as (pre & post & -> & Hpre).
      exists pre, first, post.
      split; [done|]. split; [exact Hpre|]. split.
      * assert (first ∈ filter (fun ext0 => type_name ext0 = name)
                                (pre ++ first :: post)) as Hmem
          by (rewrite Hfilter; left).
        by apply list_elem_of_filter in Hmem as [? _].
      * done.
  - intros Hnone.
    destruct (filter (fun ext0 => type_name ext0 = name) es)
      as [|first matches] eqn:Hfilter; [done|].
    assert (first ∈ filter (fun ext0 => type_name ext0 = name) es) as Hmem
      by (rewrite Hfilter; left).
    apply list_elem_of_filter in Hmem as [Heq Hin]. by destruct (Hnone first).
Qed.

(** C9 fails on [list_conformance_classes]. A client built with the
    defaults shares the module-level list; with one extension enabled, each
    call appends that extension's classes to the shared list again, so the
    list changes and two calls see different contents. *)
Theorem list_conformance_classes_mutates_module_list :
  exists (h1 h2 : heap),
    list_conformance_classes (new_client [Samples.filter_extension])
      {[ BASE_CONFORMANCE_CLASSES := [Samples.core_class] ]}
    = Some (BASE_CONFORMANCE_CLASSES, h1)
    /\ h1 !! base_conformance_classes (new_client [Samples.filter_extension])
       = Some (Samples.core_class
                 :: extension_classes Samples.filter_extension)
    /\ list_conformance_classes (new_client [Samples.filter_extension]) h1
       = Some (BASE_CONFORMANCE_CLASSES, h2)
    /\ h2 !! BASE_CONFORMANCE_CLASSES
       = Some (Samples.core_class
                 :: extension_classes Samples.filter_extension
                 ++ extension_classes Samples.filter_extension).
Proof.
  eexists _, _. split.
  - apply list_conformance_classes_extends. apply lookup_singleton_eq.
  - split; [apply lookup_insert_eq|]. split.
    + apply list_conformance_classes_extends. apply lookup_insert_eq.
    + rewrite lookup_insert_eq. reflexivity.
Qed.

End CoreFacts.

(** ** The proxy-header resolver *)

Module MiddlewareFacts.

Import Middleware.

Lemma same_name_refl (name : string) : same_name name name = true.
Proof. unfold same_name. by apply bool_decide_eq_true. Qed.

Lemma split_last_absent (sep : ascii) (s : string) :
  occurs sep s = false -> split_last sep s = None.
Proof.
  induction s as [|c s IH]; simpl; [done|].
  intros [Hc Hs]%orb_false_elim. by rewrite (IH Hs), Hc.
Qed.

(** [split_last] cuts at the last separator: what follows has none. *)
Lemma split_last_app (sep : ascii) (h p : string) :
  occurs sep p = false ->
  split_last sep (h ++ String sep p)%string = Some (h, p).
Proof.
  intros Hp. induction h as [|c h IH]; simpl.
  - rewrite (split_last_absent _ _ Hp). by rewrite bool_decide_eq_true_2.
  - by rewrite IH.
Qed.

Lemma host_and_port_split (h p : string) (fallback : option Z) :
  occurs ":" p = false ->
  host_and_port (h ++ String ":" p)%string fallback
  = (h, match parse_int p with Some n => Some n | None => fallback end).
Proof. intros Hp. unfold host_and_port. by rewrite split_last_app. Qed.

(** With a [Forwarded] header the result is fixed by that header, the
    request's own scheme and server, and the prefix header. *)
Lemma forwarded_branch (scope : Scope) (forwarded : string) :
  get_header_value_by_name (headers scope) "forwarded" = Some forwarded ->
  get_forwarded_url_parts scope
  = (from_option id (scheme scope) (directive "proto" forwarded),
     (match directive "host" forwarded with
      | Some v => host_and_port v (Some (server scope).2)
      | None => ((server scope).1, Some (server scope).2)
      end).1,
     (match directive "host" forwarded with
      | Some v => host_and_port v (Some (server scope).2)
      | None => ((server scope).1, Some (server scope).2)
      end).2,
     get_header_value_by_name (headers scope) "x-forwarded-prefix").
Proof.
  intros Hf. unfold get_forwarded_url_parts. rewrite Hf.
  by destruct (match directive "host" forwarded with
               | Some v => host_and_port v (Some (server scope).2)
               | None => ((server scope).1, Some (server scope).2)
               end).
Qed.

(** C6. Reading a header back after replacing its value yields the new
    value; an absent header is appended, a present one is replaced in place
    (the names and their order stay). *)
Theorem get_after_replace
    (hs : list (string * string)) (name v : string) :
  get_header_value_by_name (replace_header_value_by_name hs name v) name
  = Some v
  /\ (get_header_value_by_name hs name = None ->
      replace_header_value_by_name hs name v = hs ++ [(name, v)])
  /\ (is_Some (get_header_value_by_name hs name) ->
      (replace_header_value_by_name hs name v).*1 = hs.*1).
Proof.
  induction hs as [|[n w] hs (IHget & IHabsent & IHpresent)];
    cbn [replace_header_value_by_name get_header_value_by_name].
  - rewrite same_name_refl. repeat split. by intros [? [=]].
  - destruct (same_name n name) eqn:Hn;
      cbn [get_header_value_by_name]; rewrite Hn.
    + repeat split. by intros [=].
    + split; [exact IHget|]. split.
      * intros Habs. by rewrite IHabsent.
      * intros Hpres. rewrite !fmap_cons. f_equal. by apply IHpresent.
Qed.



(** C5. With a [Forwarded] header whose [host=] directive is [host:port],
    cut at the last colon, a port segment that is no integer leaves the port
    at the request's server port and the host name is still taken; a result
    is always produced. [proto=https;host=test:not-an-integer] on server
    port 80 resolves to [https], [test], 80 and no prefix. *)
Theorem unparseable_port_falls_back (scope : Scope) (forwarded : string) :
  get_header_value_by_name (headers scope) "forwarded" = Some forwarded ->
  (forall h p,
     directive "host" forwarded = Some (h ++ String ":" p)%string ->
     occurs ":" p = false -> parse_int p = None ->
     (get_forwarded_url_parts scope).1.1.2 = h
     /\ (get_forwarded_url_parts scope).1.2 = Some (server scope).2)
  /\ (forwarded = "proto=https;host=test:not-an-integer" ->
      (server scope).2 = 80%Z ->
      get_header_value_by_name (headers scope) "x-forwarded-prefix" = None ->
      get_forwarded_url_parts scope = ("https", "test", Some 80%Z, None)).
Proof.
  intros Hf. rewrite (forwarded_branch scope forwarded Hf). split.
  - intros h p Hh Hp Hn. simpl.
    by rewrite Hh, host_and_port_split, Hn.
  - intros -> Hport Hprefix. rewrite Hprefix, Hport. reflexivity.
Qed.

Lemma unparseable_port_falls_back_witness :
  get_forwarded_url_parts
    (mkScope "http" ("testserver", 80%Z)
       [("forwarded", "proto=https;host=test:not-an-integer")])
  = ("https", "test", Some 80%Z, None).
Proof.
  apply (unparseable_port_falls_back
           (mkScope "http" ("testserver", 80%Z)
              [("forwarded", "proto=https;host=test:not-an-integer")])
           "proto=https;host=test:not-an-integer");
    reflexivity.
Defined.

End MiddlewareFacts.

(** ** More on the composer *)

Module ComposerFacts.

Import Models ModelsFacts.

Lemma request_models_skip base_model pre e post mixins request_type :
  get_request_model e request_type = None ->
  request_models base_model (Some (pre ++ e :: post)) mixins request_type
  = request_models base_model (Some (pre ++ post)) mixins request_type.
Proof.
  intros He. unfold request_models. simpl.
  rewrite !omap_app. simpl. by rewrite He.
Qed.

(** X2. An extension that has no request model for the verb leaves the
    composition as it is without that extension, wherever it stands in the
    list. *)
Theorem extension_without_model_is_skipped
    (model_name : string) (base_model : class)
    (pre post : list ApiExtension) (e : ApiExtension)
    (mixins : option (list class)) (request_type : string) :
  get_request_model e request_type = None ->
  create_request_model model_name base_model (Some (pre ++ e :: post))
    mixins request_type
  = create_request_model model_name base_model (Some (pre ++ post))
      mixins request_type.
Proof.
  intros He. unfold create_request_model.
  by rewrite (request_models_skip _ _ _ _ _ _ He).
Qed.

Lemma extension_without_model_is_skipped_witness :
  create_request_model "SearchGetRequest"
    (CollectionUri Samples.sample_descriptions)
    (Some ([Samples.filter_extension] ++ Samples.crs_extension :: []))
    None "PUT"
  = create_request_model "SearchGetRequest"
      (CollectionUri Samples.sample_descriptions)
      (Some ([Samples.filter_extension] ++ [])) None "PUT".
Proof.
  apply (extension_without_model_is_skipped "SearchGetRequest"
           (CollectionUri Samples.sample_descriptions)
           [Samples.filter_extension] [] Samples.crs_extension None "PUT").
  reflexivity.
Defined.

Lemma collect_first (l1 l2 : list Attribute) (a : Attribute)
    (taken : list string) :
  a_name a ∉ a_name <$> l1 -> a_name a ∉ taken ->
  a ∈ collect (l1 ++ a :: l2) taken.
Proof.
  revert taken. induction l1 as [|b l1 IH]; intros taken Hl1 Ht; simpl.
  - rewrite bool_decide_eq_false_2 by done. left.
  - rewrite fmap_cons in Hl1. apply not_elem_of_cons in Hl1 as [Hne Hl1].
    case_bool_decide.
    + by apply IH.
    + right. apply IH; [done|]. by apply not_elem_of_cons.
Qed.

(** X3. When every model derives from [APIRequest] and Python and attrs
    accept the models as bases, the composed class never has two attributes
    of one name, takes every attribute from some input model, and keeps,
    for each name, the first declaration in list order. *)
Theorem get_model_first_declaration_wins
    (model_name : string) (base_model : class)
    (extensions : option (list ApiExtension)) (mixins : option (list class))
    (request_type : string) (order : list string) :
  Forall (fun m => issubclass m "APIRequest" = true)
         (request_models base_model extensions mixins request_type) ->
  NoDup (cls_name <$>
           request_models base_model extensions mixins request_type) ->
  linearize (request_models base_model extensions mixins request_type)
  = inr order ->
  mandatory_after_default false
    (collect_base_attrs
       (request_models base_model extensions mixins request_type) [])
  = false ->
  exists cls,
    create_request_model model_name base_model extensions mixins request_type
    = Return cls
    /\ NoDup (a_name <$> attrs_attrs cls)
    /\ (forall a, a ∈ attrs_attrs cls ->
          exists m,
            m ∈ request_models base_model extensions mixins request_type
            /\ a ∈ attrs_attrs m)
    /\ (forall l1 a l2,
          mjoin (attrs_attrs <$>
                   request_models base_model extensions mixins request_type)
          = l1 ++ a :: l2 ->
          a_name a ∉ a_name <$> l1 ->
          a ∈ attrs_attrs cls).
Proof.
  intros Hall Hbases Hlin Hord.
  set (models := request_models base_model extensions mixins request_type)
    in *.
  exists (mkClass model_name models (collect_base_attrs models []) ∅ []).
  unfold create_request_model. fold models.
  rewrite forallb_Forall_true by done.
  split; [by apply (make_class_Return _ _ order)|].
  cbn [attrs_attrs]. unfold collect_base_attrs.
  destruct (collect_names_NoDup (mjoin (attrs_attrs <$> models)) [])
    as [Hnd Hsub].
  split; [done|]. split.
  - intros a [Ha _]%Hsub.
    apply list_elem_of_join in Ha as (l & Ha & (m & -> & Hm)%list_elem_of_fmap).
    eauto.
  - intros l1 a l2 -> Hfirst. apply collect_first; [done|].
    apply not_elem_of_nil.
Qed.

Lemma get_model_first_declaration_wins_witness :
  exists cls,
    create_request_model "ItemCollectionGetRequest"
      (ItemCollectionUri Samples.sample_descriptions)
      (Some [Samples.filter_extension]) None "GET"
    = Return cls
    /\ NoDup (a_name <$> attrs_attrs cls)
    /\ (a_default <$> get_parameter cls "filter")
       = Some (Info (Query VNone None
                       (Some (FILTER Samples.sample_descriptions)))).
Proof.
  destruct (get_model_first_declaration_wins "ItemCollectionGetRequest"
              (ItemCollectionUri Samples.sample_descriptions)
              (Some [Samples.filter_extension]) None "GET"
              ["ItemCollectionUri"; "CollectionUri";
               "FilterExtensionGetRequest"; "APIRequest"; "object"])
    as (cls & Hcls & Hnd & _).
  - vm_compute. repeat constructor.
  - apply (bool_decide_unpack _). vm_compute. exact I.
  - vm_compute. reflexivity.
  - vm_compute. reflexivity.
  - exists cls. split; [exact Hcls|]. split; [exact Hnd|].
    vm_compute in Hcls. injection Hcls as <-. reflexivity.
Defined.

(** Re-deriving a re-derived parameter only wraps its [extra] again. *)
Lemma body_of_twice (fi : FieldInfo) :
  body_of (body_of fi) = wrap_extra (body_of fi).
Proof.
  unfold body_of, Body, wrap_extra. cbn. f_equal.
  by destruct (default fi).
Qed.

(** The class a composition returns is built by the branch whose test its
    models pass. *)
Lemma create_request_model_returns
    (model_name : string) (base_model : class)
    (extensions : option (list ApiExtension)) (mixins : option (list class))
    (request_type : string) (cls : class) :
  create_request_model model_name base_model extensions mixins request_type
  = Return cls ->
  (issubclass base_model "APIRequest" = true
   /\ cls = mkClass model_name
              (request_models base_model extensions mixins request_type)
              (collect_base_attrs
                 (request_models base_model extensions mixins request_type) [])
              ∅ [])
  \/ (Forall (fun m => issubclass m "BaseModel" = true)
        (request_models base_model extensions mixins request_type)
      /\ map_Forall
           (fun _ tf => default_and_factory tf.2 = false
                        /\ type_bound tf.2 = false)
           (foldl (fun acc model => add_model_fields model acc) ∅
              (request_models base_model extensions mixins request_type))
      /\ cls = mkClass model_name [base_model] []
                 (((fun tf => mkModelField tf.2 tf.1) <$>
                     foldl (fun acc model => add_model_fields model acc) ∅
                       (request_models base_model extensions mixins
                          request_type))
                  ∪ fields base_model) []).
Proof.
  unfold create_request_model.
  set (models := request_models _ _ _ _).
  destruct (request_models_base base_model extensions mixins request_type)
    as [rest Hmodels]. fold models in Hmodels.
  destruct (forallb _ models) eqn:HA.
  - intros Hmk%make_class_inv. left. split; [|done].
    rewrite Hmodels in HA. simpl in HA. by apply andb_prop in HA as [? _].
  - destruct (forallb (fun m => issubclass m "BaseModel") models) eqn:HB;
      [|done].
    unfold create_model. case_bool_decide as Hok; [|done].
    intros [= <-]. right. split; [by apply forallb_true_Forall|]. by split.
Qed.

(** X4. Composing a composed body model again, alone, returns a class that
    derives from the first composition and has the same field names; each
    parameter is as before except that its [extra] is wrapped once more
    under the key ["extra"], and a field without length bound and pattern
    keeps its type. *)
Theorem post_composition_wraps_extra
    (name1 name2 : string) (base_model : class)
    (extensions : option (list ApiExtension)) (mixins : option (list class))
    (cls : class) :
  create_request_model name1 base_model extensions mixins "POST" = Return cls ->
  kind_of cls = BodyKind ->
  exists cls2,
    create_request_model name2 cls None None "POST" = Return cls2
    /\ cls_name cls2 = name2
    /\ cls_bases cls2 = [cls]
    /\ (forall k,
          (field_info <$> fields cls2 !! k)
          = (wrap_extra ∘ field_info <$> fields cls !! k))
    /\ (forall k v,
          fields cls !! k = Some v ->
          min_length (field_info v) = None ->
          max_length (field_info v) = None ->
          regex (field_info v) = None ->
          (outer_type_ <$> fields cls2 !! k) = Some (outer_type_ v)).
Proof.
  intros Hret [HclsA HclsB]%kind_of_body.
  apply create_request_model_returns in Hret as [[HbaseA ->]|(Hall & Hok & ->)].
  { exfalso. destruct (request_models_base base_model extensions mixins "POST")
      as [rest Hmodels].
    rewrite Hmodels in HclsA. simpl in HclsA.
    rewrite HbaseA in HclsA. simpl in HclsA.
    by rewrite orb_true_r in HclsA. }
  set (models := request_models base_model extensions mixins "POST") in *.
  set (flat := foldl (fun acc model => add_model_fields model acc) ∅ models)
    in *.
  set (cls := mkClass name1 [base_model] []
                (((fun tf => mkModelField tf.2 tf.1) <$> flat)
                 ∪ fields base_model) []) in *.
  (* every field of the first composition is a re-derived one *)
  assert (Hfields : forall k v, fields cls !! k = Some v ->
            exists v0, v = mkModelField (body_of (field_info v0)) (outer_type_ v0)
                       /\ default_and_factory (body_of (field_info v0)) = false
                       /\ type_bound (body_of (field_info v0)) = false).
  { intros k v. cbn [cls fields]. rewrite lookup_union, lookup_fmap.
    destruct (flat !! k) as [tf|] eqn:Hflat; simpl.
    - destruct (flatten_image (fun _ => True) models ∅) with (k := k) (tf := tf)
        as (v0 & -> & _);
        [intros k' tf'; by rewrite lookup_empty | done | exact Hflat |].
      destruct (Hok k _ Hflat) as [Hdf Htb].
      rewrite union_Some_l. intros [= <-]. exists v0. by split.
    - destruct (fields base_model !! k) eqn:Hb; [|done].
      assert (is_Some (flat !! k)) as [? Hsome]; [|congruence].
      apply flatten_dom. right. exists base_model. split; [|by rewrite Hb].
      destruct (request_models_base base_model extensions mixins "POST")
        as [rest Hmodels]. fold models in Hmodels. rewrite Hmodels. left. }
  eexists. unfold create_request_model.
  change (request_models cls None None "POST") with [cls].
  cbn [forallb foldl]. rewrite HclsA, HclsB. cbn [andb].
  rewrite add_model_fields_union, (right_id_L ∅ (∪)).
  rewrite create_model_Return.
  2:{ intros k tf. rewrite lookup_fmap.
      destruct (fields cls !! k) as [v|] eqn:Hv; [|done]. intros [= <-].
      destruct (Hfields k v Hv) as (v0 & -> & Hdf & Htb). cbn.
      rewrite body_of_twice. split; [|done].
      unfold default_and_factory in *. cbn in *.
      destruct (default (field_info v0)); by rewrite ?andb_false_r in *. }
  split; [reflexivity|]. split; [done|]. split; [done|].
  match goal with
  | |- context [fields ?c2 !! _] =>
      assert (Hagain : forall k,
                fields c2 !! k
                = (fun v => mkModelField (wrap_extra (field_info v))
                              (outer_type_ v)) <$> fields cls !! k)
  end.
  { intros k. cbn [fields]. rewrite lookup_union, !lookup_fmap.
    destruct (fields cls !! k) as [v|] eqn:Hv; [|done]. simpl.
    destruct (Hfields k v Hv) as (v0 & -> & _). cbn.
    by rewrite body_of_twice. }
  split.
  - intros k. rewrite Hagain. by destruct (fields cls !! k).
  - intros k v Hv _ _ _. by rewrite Hagain, Hv.
Qed.

Lemma post_composition_wraps_extra_witness :
  exists cls cls2,
    create_request_model "SearchPostRequest" Samples.ItemsPostRequest
      (Some [Samples.filter_extension]) None "POST" = Return cls
    /\ create_request_model "Again" cls None None "POST" = Return cls2
    /\ (extra ∘ field_info <$> fields cls !! "limit")
       = Some [("extra", MDict [])]
    /\ (extra ∘ field_info <$> fields cls2 !! "limit")
       = Some [("extra", MDict [("extra", MDict [])])].
Proof.
  assert (exists cls,
            create_request_model "SearchPostRequest" Samples.ItemsPostRequest
              (Some [Samples.filter_extension]) None "POST" = Return cls
            /\ kind_of cls = BodyKind
            /\ (extra ∘ field_info <$> fields cls !! "limit")
               = Some [("extra", MDict [])])
    as (cls & Hcls & Hkind & Hextra) by (eexists; vm_compute; done).
  destruct (post_composition_wraps_extra "SearchPostRequest" "Again"
              Samples.ItemsPostRequest (Some [Samples.filter_extension]) None
              cls Hcls Hkind)
    as (cls2 & Hcls2 & _ & _ & Hfields & _).
  exists cls, cls2. split; [exact Hcls|]. split; [exact Hcls2|].
  split; [exact Hextra|].
  rewrite (option_fmap_compose field_info extra), Hfields.
  destruct (fields cls !! "limit") as [v|]; [|done].
  simpl in *. injection Hextra as ->. reflexivity.
Defined.

Lemma request_models_insert base_model pre e post mixins request_type m :
  get_request_model e request_type = Some m ->
  exists before after,
    request_models base_model (Some (pre ++ e :: post)) mixins request_type
    = before ++ m :: after
    /\ request_models base_model (Some (pre ++ post)) mixins request_type
       = before ++ after.
Proof.
  intros He. unfold request_models. simpl.
  exists (base_model :: omap (fun x => get_request_model x request_type) pre),
         (omap (fun x => get_request_model x request_type) post
          ++ from_option id [] mixins).
  rewrite !omap_app. simpl. rewrite He. simpl.
  by rewrite <- !app_assoc.
Qed.

(** X5. [CrsExtensionGetRequest] declares [crs] and [bbox_crs] without
    [attr.ib], so it has no attrs attribute: when the models are accepted as
    bases with and without it, an extension contributing it becomes a base
    of the composed GET class but adds no attribute to it. *)
Theorem crs_get_model_adds_no_attribute
    (model_name : string) (base_model : class)
    (pre post : list ApiExtension) (e : ApiExtension)
    (mixins : option (list class)) (order order' : list string) :
  get_request_model e "GET" = Some CrsExtensionGetRequest ->
  Forall (fun m => issubclass m "APIRequest" = true)
         (request_models base_model (Some (pre ++ post)) mixins "GET") ->
  NoDup (cls_name <$>
           request_models base_model (Some (pre ++ e :: post)) mixins "GET") ->
  linearize (request_models base_model (Some (pre ++ e :: post)) mixins "GET")
  = inr order ->
  linearize (request_models base_model (Some (pre ++ post)) mixins "GET")
  = inr order' ->
  mandatory_after_default false
    (collect_base_attrs
       (request_models base_model (Some (pre ++ post)) mixins "GET") [])
  = false ->
  exists cls cls',
    create_request_model model_name base_model (Some (pre ++ e :: post))
      mixins "GET" = Return cls
    /\ create_request_model model_name base_model (Some (pre ++ post))
         mixins "GET" = Return cls'
    /\ attrs_attrs cls = attrs_attrs cls'
    /\ CrsExtensionGetRequest ∈ cls_bases cls.
Proof.
  intros He Hall Hnd Hlin Hlin' Hord.
  destruct (request_models_insert base_model pre e post mixins "GET" _ He)
    as (before & after & Hwith & Hwithout).
  unfold create_request_model. rewrite Hwith, Hwithout in *.
  assert (Hsame : collect_base_attrs (before ++ CrsExtensionGetRequest :: after) []
                  = collect_base_attrs (before ++ after) []).
  { unfold collect_base_attrs.
    by rewrite !fmap_app, fmap_cons, !join_app. }
  rewrite !forallb_Forall_true.
  2:{ done. }
  2:{ apply Forall_app in Hall as [Hb Ha]. apply Forall_app. split; [done|].
      by constructor. }
  rewrite (make_class_Return _ _ order) by (by rewrite ?Hsame).
  rewrite (make_class_Return _ _ order').
  2:{ rewrite fmap_app, fmap_cons in Hnd. rewrite fmap_app.
      apply NoDup_app in Hnd as (Hb & Hdisj & Ha).
      apply NoDup_cons in Ha as [_ Ha]. apply NoDup_app.
      split; [done|]. split; [|done].
      intros x Hx Hxa. apply (Hdisj x Hx). by right. }
  2:{ done. }
  2:{ done. }
  eexists _, _. split; [reflexivity|]. split; [reflexivity|].
  split; [exact Hsame|]. cbn [cls_bases]. apply elem_of_app. right. left.
Qed.

Lemma crs_get_model_adds_no_attribute_witness :
  exists cls cls',
    create_request_model "SearchGetRequest"
      (CollectionUri Samples.sample_descriptions)
      (Some ([Samples.filter_extension] ++ Samples.crs_extension :: []))
      None "GET" = Return cls
    /\ create_request_model "SearchGetRequest"
         (CollectionUri Samples.sample_descriptions)
         (Some ([Samples.filter_extension] ++ [])) None "GET" = Return cls'
    /\ attrs_attrs cls = attrs_attrs cls'
    /\ CrsExtensionGetRequest ∈ cls_bases cls.
Proof.
  apply (crs_get_model_adds_no_attribute "SearchGetRequest"
           (CollectionUri Samples.sample_descriptions)
           [Samples.filter_extension] [] Samples.crs_extension None
           ["CollectionUri"; "FilterExtensionGetRequest";
            "CrsExtensionGetRequest"; "APIRequest"; "object"]
           ["CollectionUri"; "FilterExtensionGetRequest"; "APIRequest";
            "object"]).
  - reflexivity.
  - vm_compute. repeat constructor.
  - apply (bool_decide_unpack _). vm_compute. exact I.
  - vm_compute. reflexivity.
  - vm_compute. reflexivity.
  - vm_compute. reflexivity.
Defined.

End ComposerFacts.

(** ** More on the registry *)

Module RegistryFacts.

Import Core CoreFacts Landing.

(** X6. [get_extension(name)] returns exactly when
    [extension_is_enabled(name)] holds; what it returns is an extension of
    the list with that declared type name. *)
Theorem get_extension_iff_enabled (self : BaseCoreClient) (name : string) :
  (extension_is_enabled self name = true
   <-> exists ext, get_extension self name = Return ext)
  /\ (forall ext, get_extension self name = Return ext ->
        ext ∈ extensions self /\ type_name ext = name).
Proof.
  unfold extension_is_enabled, get_extension.
  assert (Hmem : forall ext,
            ext ∈ filter (fun e => type_name e = name) (extensions self)
            <-> type_name ext = name /\ ext ∈ extensions self)
    by (intros; apply (list_elem_of_filter (fun e => type_name e = name))).
  destruct (filter (fun e => type_name e = name) (extensions self))
    as [|first rest].
  - split.
    + split; [|by intros [? [=]]].
      intros (ext & Hin%list_elem_of_In & Heq%bool_decide_eq_true)%existsb_exists.
      exfalso. by apply (elem_of_nil ext), Hmem.
    + by intros ext [=].
  - destruct (proj1 (Hmem first)) as [Hname Hin]; [left|]. split.
    + split; [eauto|]. intros _. apply existsb_exists. exists first.
      split; [by apply list_elem_of_In | by apply bool_decide_eq_true].
    + by intros ext [= <-].
Qed.

(** X7. The conformance list does not depend on the order of the
    extensions or on how often a class is declared: two clients on the same
    base list whose extensions declare the same classes get the same classes,
    each once. *)
Theorem conformance_classes_order_insensitive
    (self1 self2 : BaseCoreClient) (h : heap) (l : list string) :
  base_conformance_classes self1 = base_conformance_classes self2 ->
  h !! base_conformance_classes self1 = Some l ->
  (forall uri,
     uri ∈ (extensions self1 ≫= extension_classes)
     <-> uri ∈ (extensions self2 ≫= extension_classes)) ->
  exists res1 res2,
    conformance_classes self1 h = Some (res1, h)
    /\ conformance_classes self2 h = Some (res2, h)
    /\ res1 ≡ₚ res2.
Proof.
  intros Hbase Hl Hsame. unfold conformance_classes.
  rewrite <- Hbase, Hl, !foldl_extension_classes.
  eexists _, _. split; [reflexivity|]. split; [reflexivity|].
  apply NoDup_Permutation; [apply NoDup_elements..|].
  intros uri. rewrite !elem_of_elements, !elem_of_list_to_set, !elem_of_app.
  by rewrite Hsame.
Qed.

Lemma conformance_classes_order_insensitive_witness :
  exists res1 res2,
    conformance_classes
      (new_client [Samples.filter_extension; Samples.crs_extension])
      {[ BASE_CONFORMANCE_CLASSES := [Samples.core_class] ]}
    = Some (res1, {[ BASE_CONFORMANCE_CLASSES := [Samples.core_class] ]})
    /\ conformance_classes
         (new_client [Samples.crs_extension; Samples.filter_extension;
                      Samples.crs_extension])
         {[ BASE_CONFORMANCE_CLASSES := [Samples.core_class] ]}
       = Some (res2, {[ BASE_CONFORMANCE_CLASSES := [Samples.core_class] ]})
    /\ res1 ≡ₚ res2.
Proof.
  apply (conformance_classes_order_insensitive
           (new_client [Samples.filter_extension; Samples.crs_extension])
           (new_client [Samples.crs_extension; Samples.filter_extension;
                        Samples.crs_extension])
           {[ BASE_CONFORMANCE_CLASSES := [Samples.core_class] ]}
           [Samples.core_class]).
  - reflexivity.
  - reflexivity.
  - intros uri. cbn. rewrite !elem_of_cons. tauto.
Defined.

(** X8. Every call of [list_conformance_classes] appends the extensions'
    classes to the module-level list once more: after [n] calls the list is
    the original one followed by [n] copies of them, and no other list
    object has changed. *)
Theorem list_conformance_classes_accumulates
    (n : nat) (self : BaseCoreClient) (h : heap) (l : list string) :
  h !! BASE_CONFORMANCE_CLASSES = Some l ->
  exists h',
    list_conformance_classes_times n self h = Some h'
    /\ h' !! BASE_CONFORMANCE_CLASSES
       = Some (l ++ mjoin (replicate n (extensions self ≫= extension_classes)))
    /\ forall r, r <> BASE_CONFORMANCE_CLASSES -> h' !! r = h !! r.
Proof.
  revert h l. induction n as [|n IH]; intros h l Hl; simpl.
  - exists h. by rewrite app_nil_r.
  - rewrite (list_conformance_classes_extends self h l Hl).
    destruct (IH (<[BASE_CONFORMANCE_CLASSES :=
                      l ++ (extensions self ≫= extension_classes)]> h)
                 (l ++ (extensions self ≫= extension_classes)))
      as (h' & Hh' & Hbase & Hframe); [apply lookup_insert_eq|].
    exists h'. split; [done|]. split.
    + by rewrite Hbase, <- app_assoc.
    + intros r Hr. by rewrite Hframe, lookup_insert_ne.
Qed.

Lemma list_conformance_classes_accumulates_witness :
  exists h',
    list_conformance_classes_times 3 (new_client [Samples.crs_extension])
      {[ BASE_CONFORMANCE_CLASSES := [Samples.core_class] ]} = Some h'
    /\ length <$> h' !! BASE_CONFORMANCE_CLASSES = Some 7.
Proof.
  destruct (list_conformance_classes_accumulates 3
              (new_client [Samples.crs_extension])
              {[ BASE_CONFORMANCE_CLASSES := [Samples.core_class] ]}
              [Samples.core_class])
    as (h' & Hh' & Hbase & _).
  - reflexivity.
  - exists h'. split; [exact Hh'|]. rewrite Hbase. reflexivity.
Defined.

(** X9. What one client's [list_conformance_classes] appended shows up in
    the conformance classes of every client built with the defaults, also
    of one with other extensions or none. *)
Theorem list_conformance_classes_leaks
    (a : BaseCoreClient) (extensions_b : list ApiExtension)
    (h : heap) (l : list string) :
  h !! BASE_CONFORMANCE_CLASSES = Some l ->
  exists h' res,
    list_conformance_classes a h = Some (BASE_CONFORMANCE_CLASSES, h')
    /\ conformance_classes (new_client extensions_b) h' = Some (res, h')
    /\ forall ext uri,
         ext ∈ extensions a -> uri ∈ extension_classes ext -> uri ∈ res.
Proof.
  intros Hl. rewrite (list_conformance_classes_extends a h l Hl).
  eexists _, _. split; [reflexivity|].
  unfold conformance_classes, new_client. cbn [base_conformance_classes].
  rewrite lookup_insert_eq. split; [reflexivity|].
  intros ext uri Hext Huri. rewrite foldl_extension_classes.
  apply elem_of_elements, elem_of_list_to_set.
  rewrite !elem_of_app. left. right. apply list_elem_of_bind. eauto.
Qed.

Lemma list_conformance_classes_leaks_witness :
  exists h' res,
    list_conformance_classes (new_client [Samples.filter_extension])
      {[ BASE_CONFORMANCE_CLASSES := [Samples.core_class] ]}
    = Some (BASE_CONFORMANCE_CLASSES, h')
    /\ conformance_classes (new_client []) h' = Some (res, h')
    /\ "http://www.opengis.net/spec/ogcapi-features-3/1.0/conf/filter" ∈ res.
Proof.
  destruct (list_conformance_classes_leaks
              (new_client [Samples.filter_extension]) []
              {[ BASE_CONFORMANCE_CLASSES := [Samples.core_class] ]}
              [Samples.core_class])
    as (h' & res & Hh' & Hres & Hin).
  - reflexivity.
  - exists h', res. split; [exact Hh'|]. split; [exact Hres|].
    apply (Hin Samples.filter_extension); left.
Defined.

(** X10. A client constructed with a base list of its own is not affected:
    [list_conformance_classes] neither reads nor changes that list, and the
    client's [conformance_classes] is the same before and after. *)
Theorem own_base_list_is_isolated
    (a self : BaseCoreClient) (h : heap) (l : list string) (res : list string) :
  base_conformance_classes self <> BASE_CONFORMANCE_CLASSES ->
  h !! BASE_CONFORMANCE_CLASSES = Some l ->
  conformance_classes self h = Some (res, h) ->
  exists h',
    list_conformance_classes a h = Some (BASE_CONFORMANCE_CLASSES, h')
    /\ h' !! base_conformance_classes self = h !! base_conformance_classes self
    /\ conformance_classes self h' = Some (res, h').
Proof.
  intros Hown Hl Hres. rewrite (list_conformance_classes_extends a h l Hl).
  eexists. split; [reflexivity|].
  assert (Hsame : forall more,
            <[BASE_CONFORMANCE_CLASSES := more]> h
              !! base_conformance_classes self
            = h !! base_conformance_classes self)
    by (intros; by apply lookup_insert_ne).
  split; [apply Hsame|].
  unfold conformance_classes in *. rewrite Hsame.
  destruct (h !! base_conformance_classes self); [|done].
  by injection Hres as ->.
Qed.

Lemma own_base_list_is_isolated_witness :
  exists h',
    list_conformance_classes (new_client [Samples.filter_extension])
      {[ BASE_CONFORMANCE_CLASSES := [Samples.core_class]; 1 := ["own"] ]}
    = Some (BASE_CONFORMANCE_CLASSES, h')
    /\ h' !! 1 = Some ["own"].
Proof.
  destruct (own_base_list_is_isolated
              (new_client [Samples.filter_extension])
              (mkBaseCoreClient 1 [])
              {[ BASE_CONFORMANCE_CLASSES := [Samples.core_class];
                 1 := ["own"] ]}
              [Samples.core_class] ["own"])
    as (h' & Hh' & Hown & _).
  - vm_compute. discriminate.
  - reflexivity.
  - reflexivity.
  - exists h'. split; [exact Hh'|]. etrans; [exact Hown | reflexivity].
Defined.

End RegistryFacts.

(** ** The landing page *)

Module LandingFacts.

Import Core CoreFacts Landing.

Section Page.

Variable build : string -> string.
Variable vocabulary : Vocabulary.

Lemma filter_none {A} (P : A -> Prop) `{!forall x, Decision (P x)}
    (l : list A) :
  Forall (fun x => ~ P x) l -> filter P l = [].
Proof.
  induction 1 as [|x l Hx _ IH]; [done|].
  by rewrite filter_cons_False.
Qed.

Lemma child_link_rel (c : gmap string value) (l : link) :
  child_link build vocabulary c = Done l ->
  rel_of l = Some (VStr (Relations_child vocabulary)).
Proof.
  unfold child_link. destruct (c !! "id"); [|done]. by intros [= <-].
Qed.

(** The loop over the collections ends in a [KeyError] exactly when one of
    them has no ["id"]; otherwise it appends one link per collection, in
    order. *)
Lemma child_links_Done (cs : list (gmap string value)) :
  Forall (fun c => is_Some (c !! "id")) cs ->
  exists ls,
    child_links build vocabulary cs = Done ls
    /\ Forall2 (fun c l => child_link build vocabulary c = Done l) cs ls.
Proof.
  induction 1 as [|c cs [idv Hid] _ (ls & Hls & Hall)]; simpl.
  - exists []. by split.
  - destruct (child_link build vocabulary c) as [l|key] eqn:Hl.
    + rewrite Hls. exists (l :: ls). split; [done|]. by constructor.
    + unfold child_link in Hl. by rewrite Hid in Hl.
Qed.

Lemma child_links_KeyError (cs : list (gmap string value)) :
  Exists (fun c => c !! "id" = None) cs ->
  child_links build vocabulary cs = KeyError "id".
Proof.
  induction 1 as [c cs Hc|c cs _ IH]; simpl.
  - unfold child_link. by rewrite Hc.
  - unfold child_link at 1. destruct (c !! "id"); [|done]. by rewrite IH.
Qed.

Lemma child_links_cases (cs : list (gmap string value)) :
  Forall (fun c => is_Some (c !! "id")) cs
  \/ Exists (fun c => c !! "id" = None) cs.
Proof.
  induction cs as [|c cs [IH|IH]].
  - left. constructor.
  - destruct (c !! "id") eqn:Hc.
    + left. constructor; [by rewrite Hc | done].
    + right. by left.
  - right. by right.
Qed.

Lemma landing_page_Done mixin self cs (h : heap) (l : list string)
    (children : list link) :
  h !! base_conformance_classes self = Some l ->
  child_links build vocabulary cs = Done children ->
  exists page,
    landing_page build vocabulary mixin self cs h = Some (Done page, h)
    /\ conformsTo page
       = elements (list_to_set (l ++ (extensions self ≫= extension_classes))
                   : gset string)
    /\ stac_extensions page = extension_schemas_of (extensions self)
    /\ exists fixed closing,
         links page = fixed ++ queryables_links build self ++ children ++ closing
         /\ fixed = links (_landing_page build vocabulary mixin [] [])
         /\ rel_of <$> closing
            = [Some (VStr "service-desc"); Some (VStr "service-doc")].
Proof.
  intros Hl Hchildren. unfold landing_page, conformance_classes.
  rewrite Hl, foldl_extension_classes, Hchildren.
  eexists. split; [reflexivity|]. split; [reflexivity|].
  split; [reflexivity|]. eexists _, _. split; [reflexivity|]. by split.
Qed.

Lemma children_rels (cs : list (gmap string value)) (ls : list link) :
  Forall2 (fun c l => child_link build vocabulary c = Done l) cs ls ->
  rel_of <$> ls
  = replicate (length cs) (Some (VStr (Relations_child vocabulary))).
Proof.
  induction 1 as [|c l cs ls Hl _ IH]; [done|].
  rewrite fmap_cons, IH, (child_link_rel c l Hl). done.
Qed.

(** X11. When every collection has an id, the page is returned and its
    links come in a fixed order: self, root, data, conformance, search,
    search, then the queryables link if the filter extension is enabled,
    then one child link per collection, then service-desc and
    service-doc. *)
Theorem landing_page_link_order
    (mixin : LandingPageMixin) (self : BaseCoreClient)
    (collections : list (gmap string value)) (h : heap) (l : list string) :
  h !! base_conformance_classes self = Some l ->
  Forall (fun c => is_Some (c !! "id")) collections ->
  exists page,
    landing_page build vocabulary mixin self collections h
    = Some (Done page, h)
    /\ rel_of <$> links page
       = (fun r => Some (VStr r)) <$>
           ([ Relations_self vocabulary; Relations_root vocabulary; "data";
              Relations_conformance vocabulary; Relations_search vocabulary;
              Relations_search vocabulary ]
            ++ (if extension_is_enabled self "FilterExtension"
                then [queryables_rel] else [])
            ++ replicate (length collections) (Relations_child vocabulary)
            ++ ["service-desc"; "service-doc"]).
Proof.
  intros Hl Hids.
  destruct (child_links_Done collections Hids) as (children & Hch & Hall).
  destruct (landing_page_Done mixin self collections h l children Hl Hch)
    as (page & Hpage & _ & _ & fixed & closing & Hlinks & -> & Hclosing).
  exists page. split; [done|].
  rewrite Hlinks, !fmap_app, Hclosing, (children_rels _ _ Hall), fmap_replicate.
  f_equal. f_equal. unfold queryables_links.
  by destruct (extension_is_enabled self "FilterExtension").
Qed.

(** X12. The page has exactly one queryables link, with method GET, when
    an extension of declared type [FilterExtension] is registered, and none
    otherwise (the relation names of the vocabulary being other than the
    queryables relation). *)
Theorem landing_page_queryables_link
    (mixin : LandingPageMixin) (self : BaseCoreClient)
    (collections : list (gmap string value)) (h : heap) (page : LandingPage) :
  Forall (fun r => r <> queryables_rel)
    [ Relations_self vocabulary; Relations_root vocabulary;
      Relations_conformance vocabulary; Relations_search vocabulary;
      Relations_child vocabulary ] ->
  landing_page build vocabulary mixin self collections h
  = Some (Done page, h) ->
  ((exists ext, ext ∈ extensions self /\ type_name ext = "FilterExtension") ->
   filter (fun l => rel_of l = Some (VStr queryables_rel)) (links page)
   = [queryables_link build])
  /\ ((forall ext, ext ∈ extensions self ->
         type_name ext <> "FilterExtension") ->
      filter (fun l => rel_of l = Some (VStr queryables_rel)) (links page)
      = []).
Proof.
  intros Hvoc Hpage.
  apply Forall_cons in Hvoc as [Hself Hvoc].
  apply Forall_cons in Hvoc as [Hroot Hvoc].
  apply Forall_cons in Hvoc as [Hconf Hvoc].
  apply Forall_cons in Hvoc as [Hsearch Hvoc].
  apply Forall_cons in Hvoc as [Hchild _].
  assert (Hne : forall r, r <> queryables_rel ->
                  Some (VStr r) <> Some (VStr queryables_rel))
    by (intros r Hr [=]; done).
  unfold landing_page in Hpage.
  destruct (conformance_classes self h) as [[classes h']|]; [|done].
  destruct (child_links build vocabulary collections) as [children|] eqn:Hch;
    [|done].
  injection Hpage as <- ->.
  destruct (child_links_cases collections) as [Hids|Hmiss];
    [|by rewrite (child_links_KeyError _ Hmiss) in Hch].
  destruct (child_links_Done collections Hids) as (children' & Hch' & Hall).
  rewrite Hch in Hch'. injection Hch' as <-.
  assert (Hchildren :
            filter (fun l => rel_of l = Some (VStr queryables_rel)) children
            = []).
  { apply filter_none. clear Hch.
    induction Hall as [|c l cs ls Hl _ IH]; [constructor|].
    apply Forall_cons in Hids as [_ Hids]. constructor; [|by apply IH].
    rewrite (child_link_rel c l Hl). by apply Hne. }
  cbn [links _landing_page app].
  rewrite !filter_cons_False
    by (cbn; first [by apply Hne | by intros [=]]).
  rewrite !filter_app, Hchildren.
  rewrite (filter_none _ [_; _]).
  2:{ repeat constructor; cbn; by intros [=]. }
  rewrite !app_nil_r. unfold queryables_links, extension_is_enabled.
  split.
  - intros (ext & Hin & Hname).
    assert (existsb (fun ext => bool_decide (type_name ext = "FilterExtension"))
              (extensions self) = true) as ->.
    { apply existsb_exists. exists ext.
      split; [by apply list_elem_of_In | by apply bool_decide_eq_true]. }
    by rewrite filter_cons_True.
  - intros Hnone.
    destruct (existsb _ (extensions self)) eqn:Hex; [|done].
    apply existsb_exists in Hex
      as (ext & Hin%list_elem_of_In & Heq%bool_decide_eq_true).
    by destruct (Hnone ext).
Qed.

(** X13. The call ends in the [KeyError] for ["id"] exactly when some
    collection of the backend's answer lacks that key; a page is returned
    otherwise. *)
Theorem landing_page_KeyError
    (mixin : LandingPageMixin) (self : BaseCoreClient)
    (collections : list (gmap string value)) (h : heap) (l : list string) :
  h !! base_conformance_classes self = Some l ->
  (landing_page build vocabulary mixin self collections h
   = Some (KeyError "id", h)
   <-> Exists (fun c => c !! "id" = None) collections)
  /\ ((exists page,
         landing_page build vocabulary mixin self collections h
         = Some (Done page, h))
      <-> Forall (fun c => is_Some (c !! "id")) collections).
Proof.
  intros Hl.
  assert (Hraise : Exists (fun c => c !! "id" = None) collections ->
            landing_page build vocabulary mixin self collections h
            = Some (KeyError "id", h)).
  { intros Hmiss. unfold landing_page, conformance_classes.
    by rewrite Hl, (child_links_KeyError _ Hmiss). }
  assert (Hdone : Forall (fun c => is_Some (c !! "id")) collections ->
            exists page,
              landing_page build vocabulary mixin self collections h
              = Some (Done page, h)).
  { intros Hids.
    destruct (child_links_Done collections Hids) as (children & Hch & _).
    destruct (landing_page_Done mixin self collections h l children Hl Hch)
      as (page & Hpage & _). eauto. }
  split; (split; [|done]).
  - intros Hk. destruct (child_links_cases collections) as [Hids|]; [|done].
    destruct (Hdone Hids) as [page Hpage]. congruence.
  - intros [page Hpage].
    destruct (child_links_cases collections) as [|Hmiss]; [done|].
    rewrite (Hraise Hmiss) in Hpage. congruence.
Qed.

Lemma child_links_inv (cs : list (gmap string value)) (ls : list link) :
  child_links build vocabulary cs = Done ls ->
  Forall2 (fun c l => child_link build vocabulary c = Done l) cs ls.
Proof.
  revert ls. induction cs as [|c cs IH]; intros ls; simpl.
  - intros [= <-]. constructor.
  - destruct (child_link build vocabulary c) as [l|] eqn:Hl; [|done].
    destruct (child_links build vocabulary cs) as [ls'|]; [|done].
    intros [= <-]. constructor; [done | by apply IH].
Qed.

(** X14. The link of the [i]-th collection stands right after the fixed
    links and the queryables link; its title is the collection's title, or
    the id when the title is missing, [None] or empty, and its href is built
    from ["collections/"] and the id. *)
Theorem landing_page_child_link
    (mixin : LandingPageMixin) (self : BaseCoreClient)
    (collections : list (gmap string value)) (h : heap) (page : LandingPage)
    (i : nat) (c : gmap string value) (id_ : value) :
  landing_page build vocabulary mixin self collections h
  = Some (Done page, h) ->
  collections !! i = Some c ->
  c !! "id" = Some id_ ->
  links page
    !! (6 + (if extension_is_enabled self "FilterExtension" then 1 else 0) + i)
  = Some [ ("rel", VStr (Relations_child vocabulary));
           ("type", VStr (MimeTypes_json vocabulary));
           ("title",
            if truthy (dict_get c "title") then dict_get c "title" else id_);
           ("href", VStr (build ("collections/" ++ str id_)%string)) ].
Proof.
  intros Hpage Hi Hid. unfold landing_page in Hpage.
  destruct (conformance_classes self h) as [[classes h']|]; [|done].
  destruct (child_links build vocabulary collections) as [children|] eqn:Hch;
    [|done].
  injection Hpage as <- ->.
  apply child_links_inv in Hch.
  destruct (Forall2_lookup_l _ _ _ _ _ Hch Hi) as (l & Hl & Hlink).
  unfold child_link, py_or in Hlink. rewrite Hid in Hlink.
  unfold dict_get at 3 in Hlink. rewrite Hid in Hlink. simpl in Hlink.
  injection Hlink as <-.
  cbn [links _landing_page app]. unfold queryables_links.
  destruct (extension_is_enabled self "FilterExtension"); cbn.
  - by apply lookup_app_l_Some.
  - by apply lookup_app_l_Some.
Qed.

(** X15. Building the landing page changes no list object, whatever it ends
    in; the page's [conformsTo] lists every class of the base list and of the
    extensions once, and its [stac_extensions] are the non-empty schema
    hrefs of the extensions. *)
Theorem landing_page_reads_only
    (mixin : LandingPageMixin) (self : BaseCoreClient)
    (collections : list (gmap string value)) (h h' : heap)
    (o : outcome LandingPage) :
  landing_page build vocabulary mixin self collections h = Some (o, h') ->
  h' = h
  /\ forall page, o = Done page ->
       NoDup (conformsTo page)
       /\ (forall uri,
             uri ∈ conformsTo page <->
             (exists l, h !! base_conformance_classes self = Some l
                        /\ uri ∈ l)
             \/ exists ext,
                  ext ∈ extensions self /\ uri ∈ extension_classes ext)
       /\ (forall href,
             href ∈ stac_extensions page <->
             href <> ""
             /\ exists ext,
                  ext ∈ extensions self /\ schema_href ext = Some href).
Proof.
  unfold landing_page, conformance_classes.
  destruct (h !! base_conformance_classes self) as [l|]; [|done].
  rewrite foldl_extension_classes.
  destruct (child_links build vocabulary collections) as [children|].
  2:{ intros [= <- <-]. split; [done|]. by intros page [=]. }
  intros [= <- <-]. split; [done|]. intros page [= <-].
  cbn [conformsTo stac_extensions _landing_page]. split; [|split].
  - apply NoDup_elements.
  - intros uri. rewrite elem_of_elements, elem_of_list_to_set, elem_of_app,
      list_elem_of_bind.
    split.
    + intros [Hl|(ext & ? & ?)]; [left; eauto | right; eauto].
    + intros [(l' & [= <-] & Hl)|(ext & ? & ?)]; [by left | right; eauto].
  - intros href. unfold extension_schemas_of. rewrite list_elem_of_omap.
    split.
    + intros (ext & Hext & Hhref).
      destruct (schema_href ext) as [href'|] eqn:Hs; [|done].
      case_bool_decide; [done|]. injection Hhref as ->. eauto.
    + intros (Hne & ext & Hext & Hs). exists ext. split; [done|].
      rewrite Hs. by rewrite bool_decide_eq_false_2.
Qed.

End Page.

Lemma landing_page_link_order_witness :
  exists page,
    landing_page LandingSamples.build LandingSamples.vocabulary
      LandingSamples.mixin (new_client [Samples.filter_extension])
      LandingSamples.collections
      {[ BASE_CONFORMANCE_CLASSES := [Samples.core_class] ]}
    = Some (Done page, {[ BASE_CONFORMANCE_CLASSES := [Samples.core_class] ]})
    /\ length (links page) = 12.
Proof.
  destruct (landing_page_link_order LandingSamples.build
              LandingSamples.vocabulary LandingSamples.mixin
              (new_client [Samples.filter_extension])
              LandingSamples.collections
              {[ BASE_CONFORMANCE_CLASSES := [Samples.core_class] ]}
              [Samples.core_class])
    as (page & Hpage & Hrels).
  - reflexivity.
  - repeat constructor; by eexists.
  - exists page. split; [exact Hpage|].
    rewrite <- (length_fmap rel_of), Hrels. reflexivity.
Defined.

Lemma landing_page_queryables_link_witness :
  exists page,
    landing_page LandingSamples.build LandingSamples.vocabulary
      LandingSamples.mixin (new_client [Samples.filter_extension])
      LandingSamples.collections
      {[ BASE_CONFORMANCE_CLASSES := [Samples.core_class] ]}
    = Some (Done page, {[ BASE_CONFORMANCE_CLASSES := [Samples.core_class] ]})
    /\ filter (fun l => rel_of l = Some (VStr queryables_rel)) (links page)
       = [queryables_link LandingSamples.build].
Proof.
  eexists. split; [reflexivity|].
  refine (proj1 (landing_page_queryables_link LandingSamples.build
                   LandingSamples.vocabulary LandingSamples.mixin
                   (new_client [Samples.filter_extension])
                   LandingSamples.collections
                   {[ BASE_CONFORMANCE_CLASSES := [Samples.core_class] ]}
                   _ _ eq_refl) _).
  - repeat constructor; discriminate.
  - exists Samples.filter_extension. split; [left | reflexivity].
Defined.

Lemma landing_page_KeyError_witness :
  landing_page LandingSamples.build LandingSamples.vocabulary
    LandingSamples.mixin (new_client [])
    (LandingSamples.collections ++ [LandingSamples.broken_collection])
    {[ BASE_CONFORMANCE_CLASSES := [Samples.core_class] ]}
  = Some (KeyError "id", {[ BASE_CONFORMANCE_CLASSES := [Samples.core_class] ]}).
Proof.
  apply (landing_page_KeyError LandingSamples.build LandingSamples.vocabulary
           LandingSamples.mixin (new_client [])
           (LandingSamples.collections ++ [LandingSamples.broken_collection])
           {[ BASE_CONFORMANCE_CLASSES := [Samples.core_class] ]}
           [Samples.core_class]).
  - reflexivity.
  - apply Exists_app. right. left. reflexivity.
Defined.

Lemma landing_page_child_link_witness :
  exists page,
    landing_page LandingSamples.build LandingSamples.vocabulary
      LandingSamples.mixin (new_client [Samples.filter_extension])
      LandingSamples.collections
      {[ BASE_CONFORMANCE_CLASSES := [Samples.core_class] ]}
    = Some (Done page, {[ BASE_CONFORMANCE_CLASSES := [Samples.core_class] ]})
    /\ title_of <$> links page !! 8 = Some (Some (VStr "ortho")).
Proof.
  assert (exists page,
            landing_page LandingSamples.build LandingSamples.vocabulary
              LandingSamples.mixin (new_client [Samples.filter_extension])
              LandingSamples.collections
              {[ BASE_CONFORMANCE_CLASSES := [Samples.core_class] ]}
            = Some (Done page,
                    {[ BASE_CONFORMANCE_CLASSES := [Samples.core_class] ]}))
    as [page Hpage] by (eexists; reflexivity).
  exists page. split; [exact Hpage|].
  pose proof (landing_page_child_link LandingSamples.build
                LandingSamples.vocabulary LandingSamples.mixin
                (new_client [Samples.filter_extension])
                LandingSamples.collections _ page 1
                {[ "id" := VStr "ortho"; "title" := VStr "" ]} (VStr "ortho")
                Hpage eq_refl eq_refl) as Hlink.
  etrans; [apply (f_equal (fmap title_of)); exact Hlink | reflexivity].
Defined.

Lemma landing_page_reads_only_witness :
  exists page,
    landing_page LandingSamples.build LandingSamples.vocabulary
      LandingSamples.mixin (new_client [Samples.filter_extension])
      LandingSamples.collections
      {[ BASE_CONFORMANCE_CLASSES := [Samples.core_class; Samples.core_class] ]}
    = Some (Done page,
            {[ BASE_CONFORMANCE_CLASSES :=
                 [Samples.core_class; Samples.core_class] ]})
    /\ NoDup (conformsTo page).
Proof.
  assert (exists page,
            landing_page LandingSamples.build LandingSamples.vocabulary
              LandingSamples.mixin (new_client [Samples.filter_extension])
              LandingSamples.collections
              {[ BASE_CONFORMANCE_CLASSES :=
                   [Samples.core_class; Samples.core_class] ]}
            = Some (Done page,
                    {[ BASE_CONFORMANCE_CLASSES :=
                         [Samples.core_class; Samples.core_class] ]}))
    as [page Hpage] by (eexists; reflexivity).
  exists page. split; [exact Hpage|].
  exact (proj1 (proj2 (landing_page_reads_only LandingSamples.build
                         LandingSamples.vocabulary LandingSamples.mixin
                         (new_client [Samples.filter_extension])
                         LandingSamples.collections _ _ _ Hpage)
                  page eq_refl)).
Defined.

End LandingFacts.

(** ** The middleware's test tables *)

Module MiddlewareTests.

Import Middleware.

(** X16. The resolver and the header lookup give the result expected by
    every case of [test_get_forwarded_url_parts] and
    [test_get_header_value_by_name]. *)
Theorem test_tables_hold :
  get_forwarded_url_parts (mkScope "https" ("testserver", 80%Z) [])
  = ("https", "testserver", Some 80%Z, None)
  /\ get_forwarded_url_parts (mkScope "http" ("testserver", 80%Z) [("host", "testserver:81")])
     = ("http", "testserver", Some 81%Z, None)
  /\ get_forwarded_url_parts (mkScope "http" ("testserver", 80%Z) [("host", "testserver")])
     = ("http", "testserver", None, None)
  /\ get_forwarded_url_parts
       (mkScope "http" ("testserver", 80%Z) [("forwarded", "proto=https;host=test:1234")])
     = ("https", "test", Some 1234%Z, None)
  /\ get_forwarded_url_parts
       (mkScope "http" ("testserver", 80%Z) [("forwarded", "proto=https;host=test:not-an-integer")])
     = ("https", "test", Some 80%Z, None)
  /\ get_forwarded_url_parts (mkScope "http" ("testserver", 80%Z) [("x-forwarded-host", "test")])
     = ("http", "test", Some 80%Z, None)
  /\ get_forwarded_url_parts (mkScope "http" ("testserver", 80%Z) [("x-forwarded-proto", "https")])
     = ("https", "testserver", Some 80%Z, None)
  /\ get_forwarded_url_parts (mkScope "http" ("testserver", 80%Z) [("x-forwarded-port", "1111")])
     = ("http", "testserver", Some 1111%Z, None)
  /\ get_forwarded_url_parts (mkScope "http" ("testserver", 80%Z) [("x-forwarded-prefix", "/rest")])
     = ("http", "testserver", Some 80%Z, Some "/rest")
  /\ get_forwarded_url_parts
       (mkScope "http" ("testserver", 80%Z) [("x-forwarded-port", "not-an-integer")])
     = ("http", "testserver", Some 80%Z, None)
  /\ get_forwarded_url_parts
       (mkScope "http" ("testserver", 80%Z) [("forwarded", "proto=https;host=test:1234");
                    ("x-forwarded-host", "another-test");
                    ("x-forwarded-port", "1111");
                    ("x-forwarded-proto", "https")])
     = ("https", "test", Some 1234%Z, None)
  /\ get_header_value_by_name [("host", "testserver")] "host"
     = Some "testserver"
  /\ get_header_value_by_name [("host", "testserver")] "user-agent" = None
  /\ get_header_value_by_name
       [("host", "testserver"); ("accept-encoding", "gzip, deflate, br")]
       "accept-encoding"
     = Some "gzip, deflate, br".
Proof. repeat split. Qed.

End MiddlewareTests.
